(** * gamehub-lite-api: registry, validator and projection generators

    A shallow embedding of [src/registry/registry.ts],
    [src/generators/downloads-generator.ts] (manifest part),
    [src/generators/index-generator.ts] and
    [src/generators/simulator-generators.ts], with the properties of the
    specification stated and proved over it.

    Modelling conventions.
    - A JavaScript [number] that the program uses as an identifier, a type
      tag or a counter is an integer, modelled as [Z].
    - A JavaScript string is a [string]; the template literal
      [`${a}/${b}`] is concatenation.
    - [Map<K, V>] is an insertion-ordered association list ([JsMap]):
      iteration order is observable through [getAllComponents] and
      [validate].
    - A function that can throw returns a [completion]; a method that mutates
      the registry returns the completion together with the registry it
      leaves behind and the lines it printed on the console. *)

From Stdlib Require Import ZArith List String Ascii Bool Lia.
From Stdlib Require Import Permutation Sorted.
From Stdlib Require Import DecimalString.
Import ListNotations.
Local Open Scope string_scope.
Local Open Scope list_scope.
Local Open Scope Z_scope.

Set Implicit Arguments.

(* ------------------------------------------------------------------ *)
(** ** JavaScript runtime fragments *)
(* ------------------------------------------------------------------ *)

(** Exceptions the modelled code can raise: the engine's [TypeError]
    (property access on [undefined] or [null]) and [new Error(msg)]. *)
Inductive exn : Type :=
| TypeError
| Error (msg : string).

Inductive completion (A : Type) : Type :=
| Normal (a : A)
| Throw (e : exn).
Arguments Normal {A} a.
Arguments Throw {A} e.

Definition bind {A B} (m : completion A) (k : A -> completion B) : completion B :=
  match m with
  | Normal a => k a
  | Throw e => Throw e
  end.

Notation "x <- m ;; k" := (bind m (fun x => k))
  (at level 61, m at next level, right associativity).

Definition raises {A} (m : completion A) : Prop := exists e, m = Throw e.

(** Dereferencing a nullable field: [x!.f] throws [TypeError] on [null]. *)
Definition deref {A} (o : option A) : completion A :=
  match o with
  | Some a => Normal a
  | None => Throw TypeError
  end.

(** A value as [JSON.parse] can deliver it for a scalar field, with the tag
    [typeof] observes. *)
Inductive JsValue : Type :=
| JsString (s : string)
| JsNumber (n : Z)
| JsBoolean (b : bool)
| JsNull
| JsUndefined.

Definition typeof (v : JsValue) : string :=
  match v with
  | JsString _ => "string"
  | JsNumber _ => "number"
  | JsBoolean _ => "boolean"
  | JsNull => "object"
  | JsUndefined => "undefined"
  end.

(** [String(n)] / [`${n}`] for an integer [n]. *)
Definition showNumber (n : Z) : string := NilZero.string_of_int (Z.to_int n).

(** Truthiness of a string: only the empty string is falsy. *)
Definition truthy (s : string) : bool :=
  match s with
  | EmptyString => false
  | String _ _ => true
  end.

(** [a ?? b] on an optional string. *)
Definition nullish (o : option string) (d : string) : string :=
  match o with
  | Some s => s
  | None => d
  end.

(** [t || d] on an optional string: [undefined] and the empty string both
    select [d]. *)
Definition orElse (o : option string) (d : string) : string :=
  match o with
  | Some s => if truthy s then s else d
  | None => d
  end.

Definition dquote : string := String "034"%char EmptyString.

(** Keys of a [Map]: number keys and string keys, compared by
    SameValueZero, which on integers and strings is equality. *)
Class KeyEq (K : Type) : Type := {
  keq : K -> K -> bool;
  keq_spec : forall a b : K, keq a b = true <-> a = b
}.

#[export] Instance KeyEq_Z : KeyEq Z :=
  {| keq := Z.eqb; keq_spec := Z.eqb_eq |}.

#[export] Instance KeyEq_string : KeyEq string :=
  {| keq := String.eqb; keq_spec := String.eqb_eq |}.

(** Insertion-ordered map, as ECMAScript's [Map]. *)
Module JsMap.
Section WithKey.
Context {K V : Type} `{KeyEq K}.

Definition t := list (K * V).

Definition empty : t := [].

Fixpoint get (m : t) (k : K) : option V :=
  match m with
  | [] => None
  | (k', v) :: m' => if keq k' k then Some v else get m' k
  end.

Definition has (m : t) (k : K) : bool :=
  match get m k with
  | Some _ => true
  | None => false
  end.

(** [m.set(k, v)]: an existing key keeps its position, a new key goes
    last. *)
Fixpoint set (m : t) (k : K) (v : V) : t :=
  match m with
  | [] => [(k, v)]
  | (k', v') :: m' =>
      if keq k' k then (k', v) :: m' else (k', v') :: set m' k v
  end.

Definition keys (m : t) : list K := map fst m.
Definition values (m : t) : list V := map snd m.
Definition size (m : t) : Z := Z.of_nat (List.length m).
End WithKey.
Arguments t K V : clear implicits.
End JsMap.

(* ------------------------------------------------------------------ *)
(** ** Data model ([src/types/component.ts]) *)
(* ------------------------------------------------------------------ *)

(** [COMPONENT_TYPE_META]: a record keyed by the seven type tags; any other
    key reads [undefined]. *)
Module TypeMeta.
Record t : Type := {
  name : string;
  displayName : string;
  manifest : string
}.
End TypeMeta.

Definition COMPONENT_TYPE_META (type : Z) : option TypeMeta.t :=
  match type with
  | 1 => Some {| TypeMeta.name := "box64";
                 TypeMeta.displayName := "Box64 Emulators";
                 TypeMeta.manifest := "box64_manifest" |}
  | 2 => Some {| TypeMeta.name := "drivers";
                 TypeMeta.displayName := "GPU Drivers";
                 TypeMeta.manifest := "drivers_manifest" |}
  | 3 => Some {| TypeMeta.name := "dxvk";
                 TypeMeta.displayName := "DXVK Layers";
                 TypeMeta.manifest := "dxvk_manifest" |}
  | 4 => Some {| TypeMeta.name := "vkd3d";
                 TypeMeta.displayName := "VKD3D Proton";
                 TypeMeta.manifest := "vkd3d_manifest" |}
  | 5 => Some {| TypeMeta.name := "games";
                 TypeMeta.displayName := "Game Patches";
                 TypeMeta.manifest := "games_manifest" |}
  | 6 => Some {| TypeMeta.name := "libraries";
                 TypeMeta.displayName := "System Libraries";
                 TypeMeta.manifest := "libraries_manifest" |}
  | 7 => Some {| TypeMeta.name := "steam";
                 TypeMeta.displayName := "Steam Components";
                 TypeMeta.manifest := "steam_manifest" |}
  | _ => None
  end.

(** [interface Component].  [type] is declared [ComponentTypeValue] but is a
    plain number at run time (the override parser casts it unchecked), and
    [file_size] is declared [string] but [validate] inspects its run-time
    tag, so both keep their run-time shape here. *)
Module Component.
Record t : Type := {
  id : Z;
  name : string;
  type : Z;
  version : string;
  version_code : Z;
  file_name : string;
  file_md5 : string;
  file_size : JsValue;
  download_url : string;
  logo : string;
  display_name : string;
  blurb : option string;
  gpu_range : option string;
  is_steam : option Z
}.
End Component.

Module SubData.
Record t : Type := {
  sub_file_name : string;
  sub_download_url : string;
  sub_file_md5 : string
}.
End SubData.

Inductive Framework : Type := X64 | arm64X | X86.
Inductive FrameworkType : Type := stable | proton | experimental.

Module Container.
Record t : Type := {
  id : Z;
  name : string;
  version : string;
  version_code : Z;
  file_name : string;
  file_md5 : string;
  file_size : string;
  download_url : string;
  logo : string;
  display_name : string;
  framework : Framework;
  framework_type : FrameworkType;
  is_steam : Z;
  sub_data : option SubData.t
}.
End Container.

Module Imagefs.
Record t : Type := {
  id : Z;
  name : string;
  version : string;
  version_code : Z;
  file_name : string;
  file_md5 : string;
  file_size : string;
  download_url : string;
  logo : string;
  display_name : string;
  upgrade_msg : string;
  blurb : string
}.
End Imagefs.

Module Translations.
Record t : Type := {
  box64 : list (string * string);
  fex : list (string * string)
}.
End Translations.

Module Controller.
Record t : Type := {
  dinput : bool;
  xinput : bool;
  xboxLayout : bool;
  vibration : bool
}.
End Controller.

Module ExecutionConfig.
Record t : Type := {
  translations : Translations.t;
  controller : Controller.t;
  audio_driver : Z;
  cpu_limitations : Z;
  video_memory : Z;
  directx_panel : Z;
  launch_windowed_mode : Z;
  start_param : string;
  environment : string
}.
End ExecutionConfig.

Module ExecutionContext.
Record t : Type := {
  params : string * Z * string * Z * string * Z;
  script_id : Z;
  timestamp : Z
}.
End ExecutionContext.

Module Defaults.
Record t : Type := {
  dxvk : Z;
  vkd3d : Z;
  steamClient : Z;
  container : Z;
  genericComponentIds : list Z;
  qualcommComponentIds : list Z;
  genericContext : ExecutionContext.t;
  qualcommContext : ExecutionContext.t
}.
End Defaults.

(** Modelled from the spec: [BuildConfig] is declared in a file that is not
    part of the sources at hand.  The registry reads two of its options,
    [cdnBaseUrl] (prefix of every rewritten download URL) and [logoUrl] (the
    uniform logo); the remaining options are file locations used by the
    loader only. *)
Module BuildConfig.
Record t : Type := {
  cdnBaseUrl : string;
  logoUrl : string
}.
End BuildConfig.

(* ------------------------------------------------------------------ *)
(** ** Built-ins used by the registry *)
(* ------------------------------------------------------------------ *)

(** The values a counting loop [for (let i = lo; i <= hi; i++)] takes. *)
Definition upto (lo hi : Z) : list Z :=
  map (fun i => lo + Z.of_nat i) (seq 0 (Z.to_nat (hi - lo + 1))).

(** [Array.prototype.sort(cmp)] on a copy of the array.  ECMAScript requires
    the sort to be stable: [a] goes before [b] when [cmp a b < 0], after it
    when [cmp a b > 0], and the two keep their order when [cmp a b = 0].
    The model is the insertion sort with that behaviour;
    [stable_sort_unique] below shows that for the comparator used here every
    stable sort returns the same array. *)
Section ArraySort.
Context {A : Type} (cmp : A -> A -> Z).

Fixpoint sortInsert (x : A) (l : list A) : list A :=
  match l with
  | [] => [x]
  | y :: l' => if cmp x y <=? 0 then x :: y :: l' else y :: sortInsert x l'
  end.

Definition arraySort (l : list A) : list A := fold_right sortInsert [] l.
End ArraySort.

(** [/^[a-f0-9]{32}$/i.test(s)]: exactly 32 characters, each in the class
    [[a-f0-9]] up to case, and then the end of the input. *)
Definition hexClassIgnoreCase (c : ascii) : bool :=
  let n := N_of_ascii c in
  ((48 <=? n) && (n <=? 57) || (97 <=? n) && (n <=? 102)
   || (65 <=? n) && (n <=? 70))%N.

Fixpoint matchHexExactly (n : nat) (s : string) : bool :=
  match n, s with
  | O, EmptyString => true
  | S n', String c s' => hexClassIgnoreCase c && matchHexExactly n' s'
  | _, _ => false
  end.

Definition md5RegexTest (s : string) : bool := matchHexExactly 32 s.

(* ------------------------------------------------------------------ *)
(** ** The registry ([src/registry/registry.ts]) *)
(* ------------------------------------------------------------------ *)

Module ValidationResult.
Record t : Type := {
  valid : bool;
  errors : list string
}.
End ValidationResult.

Module ComponentRegistry.

Record t : Type := {
  components : JsMap.t Z Component.t;
  componentsByType : JsMap.t Z (list Component.t);
  componentsByName : JsMap.t string Component.t;
  containers : list Container.t;
  imagefs : option Imagefs.t;
  defaults : option Defaults.t;
  executionConfig : option ExecutionConfig.t;
  config : BuildConfig.t
}.

(** What a mutating method leaves behind: how it completed, the registry
    after it (mutations made before a throw persist), and the console lines
    it wrote. *)
Record effect : Type := {
  outcome : completion unit;
  heap : t;
  console : list string
}.

(** [constructor(config)] *)
Definition new (config : BuildConfig.t) : t :=
  {| components := JsMap.empty;
     componentsByType :=
       fold_left (fun m type => JsMap.set m type []) (upto 1 7) JsMap.empty;
     componentsByName := JsMap.empty;
     containers := [];
     imagefs := None;
     defaults := None;
     executionConfig := None;
     config := config |}.

(** Assignments to the public fields, as the build driver makes them after
    the components are added. *)
Definition load (this : t) (cs : list Container.t) (im : option Imagefs.t)
    (d : option Defaults.t) (ec : option ExecutionConfig.t) : t :=
  {| components := components this;
     componentsByType := componentsByType this;
     componentsByName := componentsByName this;
     containers := cs;
     imagefs := im;
     defaults := d;
     executionConfig := ec;
     config := config this |}.

(** [{ ...component, download_url: `${cdnBaseUrl}/${file_name}`, logo: logoUrl }] *)
Definition rewrite (cfg : BuildConfig.t) (component : Component.t) : Component.t :=
  {| Component.id := Component.id component;
     Component.name := Component.name component;
     Component.type := Component.type component;
     Component.version := Component.version component;
     Component.version_code := Component.version_code component;
     Component.file_name := Component.file_name component;
     Component.file_md5 := Component.file_md5 component;
     Component.file_size := Component.file_size component;
     Component.download_url :=
       (BuildConfig.cdnBaseUrl cfg ++ "/" ++ Component.file_name component)%string;
     Component.logo := BuildConfig.logoUrl cfg;
     Component.display_name := Component.display_name component;
     Component.blurb := Component.blurb component;
     Component.gpu_range := Component.gpu_range component;
     Component.is_steam := Component.is_steam component |}.

Definition duplicateWarning (component existing : Component.t) : string :=
  ("Duplicate ID " ++ showNumber (Component.id component) ++ ": " ++ dquote
   ++ Component.name component ++ dquote ++ " conflicts with " ++ dquote
   ++ Component.name existing ++ dquote ++ ". Keeping first.")%string.

(** [addComponent(component)].  The three index updates happen in source
    order; [componentsByType.get(type)!.push(..)] throws when the type has
    no partition, after [components.set] has already taken place. *)
Definition addComponent (this : t) (component : Component.t) : effect :=
  if JsMap.has (components this) (Component.id component) then
    match JsMap.get (components this) (Component.id component) with
    | Some existing =>
        {| outcome := Normal tt;
           heap := this;
           console := [duplicateWarning component existing] |}
    | None => {| outcome := Throw TypeError; heap := this; console := [] |}
    end
  else
    let rewrittenComponent := rewrite (config this) component in
    let components1 :=
      JsMap.set (components this) (Component.id component) rewrittenComponent in
    match JsMap.get (componentsByType this) (Component.type component) with
    | None =>
        {| outcome := Throw TypeError;
           heap := {| components := components1;
                      componentsByType := componentsByType this;
                      componentsByName := componentsByName this;
                      containers := containers this;
                      imagefs := imagefs this;
                      defaults := defaults this;
                      executionConfig := executionConfig this;
                      config := config this |};
           console := [] |}
    | Some partition =>
        {| outcome := Normal tt;
           heap := {| components := components1;
                      componentsByType :=
                        JsMap.set (componentsByType this)
                          (Component.type component)
                          (partition ++ [rewrittenComponent]);
                      componentsByName :=
                        JsMap.set (componentsByName this)
                          (Component.name component) rewrittenComponent;
                      containers := containers this;
                      imagefs := imagefs this;
                      defaults := defaults this;
                      executionConfig := executionConfig this;
                      config := config this |};
           console := [] |}
    end.

(** [addComponents(components)]: the loop stops at the first throw. *)
Fixpoint addComponents (this : t) (cs : list Component.t) : effect :=
  match cs with
  | [] => {| outcome := Normal tt; heap := this; console := [] |}
  | component :: rest =>
      let e := addComponent this component in
      match outcome e with
      | Normal _ =>
          let e' := addComponents (heap e) rest in
          {| outcome := outcome e';
             heap := heap e';
             console := console e ++ console e' |}
      | Throw _ => e
      end
  end.

Definition getById (this : t) (id : Z) : option Component.t :=
  JsMap.get (components this) id.

Definition getByName (this : t) (name : string) : option Component.t :=
  JsMap.get (componentsByName this) name.

(** [this.componentsByType.get(type) || []]: an array is always truthy. *)
Definition getByType (this : t) (type : Z) : list Component.t :=
  match JsMap.get (componentsByType this) type with
  | Some partition => partition
  | None => []
  end.

Definition getAllComponents (this : t) : list Component.t :=
  JsMap.values (components this).

Definition getTotalCount (this : t) : Z := JsMap.size (components this).

Definition getCountByType (this : t) (type : Z) : Z :=
  Z.of_nat (List.length (getByType this type)).

Definition getCountsByType (this : t) : list (Z * Z) :=
  fold_left (fun counts type => counts ++ [(type, getCountByType this type)])
    (upto 1 7) [].

(** [[...components].sort((a, b) => b.id - a.id)] *)
Definition sortByIdDescending (cs : list Component.t) : list Component.t :=
  arraySort (fun a b => Component.id b - Component.id a) cs.

(** [getHighestId()]: the loop over [this.components.keys()]. *)
Definition getHighestId (this : t) : Z :=
  fold_left (fun highest id => if id >? highest then id else highest)
    (JsMap.keys (components this)) 0.

(** [sortByTypeAndIdDescending(components)] *)
Definition sortByTypeAndIdDescending (cs : list Component.t)
  : list Component.t :=
  arraySort
    (fun a b =>
       if negb (Component.type a =? Component.type b)
       then Component.type a - Component.type b
       else Component.id b - Component.id a)
    cs.

Definition getTypeMeta (type : Z) : option TypeMeta.t :=
  COMPONENT_TYPE_META type.

Definition pushIf (cond : bool) (msg : string) (errors : list string)
  : list string :=
  if cond then errors ++ [msg] else errors.

Definition isEmpty {A} (l : list A) : bool :=
  match l with
  | [] => true
  | _ :: _ => false
  end.

Definition isNone {A} (o : option A) : bool :=
  match o with
  | Some _ => false
  | None => true
  end.

Definition componentLabel (component : Component.t) : string :=
  ("Component " ++ showNumber (Component.id component))%string.

(** Body of the [for (const component of this.components.values())] loop. *)
Definition validateComponent (errors : list string) (component : Component.t)
  : list string :=
  let errors :=
    pushIf (negb (String.eqb (typeof (Component.file_size component)) "string"))
      (componentLabel component ++ ": file_size must be string")%string errors in
  let errors :=
    pushIf (negb (md5RegexTest (Component.file_md5 component)))
      (componentLabel component ++ ": invalid MD5 hash")%string errors in
  let errors :=
    pushIf (negb (truthy (Component.name component)))
      (componentLabel component ++ ": missing name")%string errors in
  let errors :=
    pushIf (negb (truthy (Component.file_name component)))
      (componentLabel component ++ ": missing file_name")%string errors in
  pushIf (negb (truthy (Component.download_url component)))
    (componentLabel component ++ ": missing download_url")%string errors.

Definition validateScriptIds (this : t) (label : string)
    (errors : list string) (ids : list Z) : list string :=
  fold_left
    (fun errors id =>
       pushIf (negb (JsMap.has (components this) id))
         (label ++ " script component ID " ++ showNumber id ++ " not found")%string
         errors)
    ids errors.

Definition validateDefaults (this : t) (errors : list string) : list string :=
  match defaults this with
  | None => errors
  | Some d =>
      let errors :=
        pushIf (negb (JsMap.has (components this) (Defaults.dxvk d)))
          ("Default dxvk ID " ++ showNumber (Defaults.dxvk d) ++ " not found")%string
          errors in
      let errors :=
        pushIf (negb (JsMap.has (components this) (Defaults.vkd3d d)))
          ("Default vkd3d ID " ++ showNumber (Defaults.vkd3d d) ++ " not found")%string
          errors in
      let errors :=
        pushIf (negb (JsMap.has (components this) (Defaults.steamClient d)))
          ("Default steamClient ID " ++ showNumber (Defaults.steamClient d)
           ++ " not found")%string
          errors in
      let errors :=
        validateScriptIds this "Generic" errors (Defaults.genericComponentIds d) in
      validateScriptIds this "Qualcomm" errors (Defaults.qualcommComponentIds d)
  end.

(** [validate()] *)
Definition validate (this : t) : ValidationResult.t :=
  let errors := [] in
  let errors :=
    pushIf (JsMap.size (components this) =? 0) "No components loaded" errors in
  let errors := pushIf (isNone (imagefs this)) "Imagefs not loaded" errors in
  let errors :=
    pushIf (isEmpty (containers this)) "No containers loaded" errors in
  let errors := pushIf (isNone (defaults this)) "Defaults not loaded" errors in
  let errors :=
    pushIf (isNone (executionConfig this)) "Execution config not loaded"
      errors in
  let errors :=
    fold_left validateComponent (JsMap.values (components this)) errors in
  let errors := validateDefaults this errors in
  {| ValidationResult.valid := isEmpty errors;
     ValidationResult.errors := errors |}.

End ComponentRegistry.

(* ------------------------------------------------------------------ *)
(** ** Output documents ([src/types/outputs.ts]) *)
(* ------------------------------------------------------------------ *)

Module ApiResponse.
Record t (T : Type) : Type := {
  code : Z;
  msg : string;
  data : T
}.
End ApiResponse.

Module ApiResponseWithTime.
Record t (T : Type) : Type := {
  code : Z;
  msg : string;
  data : T;
  time : string
}.
End ApiResponseWithTime.

Module ManifestComponent.
Record t : Type := {
  display_name : string;
  download_url : string;
  file_md5 : string;
  file_name : string;
  file_size : JsValue;
  id : Z;
  is_ui : Z;
  logo : string;
  name : string;
  type : Z;
  version : string;
  version_code : Z
}.
End ManifestComponent.

Module ManifestData.
Record t : Type := {
  type : Z;
  type_name : string;
  display_name : string;
  total : Z;
  components : list ManifestComponent.t
}.
End ManifestData.

Module IndexCategory.
Record t : Type := {
  count : Z;
  display_name : string;
  manifest_url : string;
  name : string;
  type : Z
}.
End IndexCategory.

Module IndexData.
Record t : Type := {
  categories : list IndexCategory.t;
  total_components : Z
}.
End IndexData.

(** [DefaultComponentEntry | EmptyComponentEntry]: the empty entry has the
    same keys with constant values. *)
Module DefaultComponentEntry.
Record t : Type := {
  blurb : string;
  display_name : string;
  download_url : string;
  file_md5 : string;
  file_name : string;
  file_size : JsValue;
  id : Z;
  logo : string;
  name : string;
  type : Z;
  version : string;
  version_code : Z
}.
End DefaultComponentEntry.

(** The [container] and [gpu] keys hold the literal [null]. *)
Inductive JsNullLiteral : Type := null.

Module DefaultComponentData.
Record t : Type := {
  container : JsNullLiteral;
  gpu : JsNullLiteral;
  dxvk : DefaultComponentEntry.t;
  vkd3d : DefaultComponentEntry.t;
  translator : DefaultComponentEntry.t;
  steamClient : DefaultComponentEntry.t
}.
End DefaultComponentData.

Module ExecuteComponent.
Record t : Type := {
  base_type : Z;
  blurb : string;
  display_name : string;
  download_url : string;
  file_md5 : string;
  file_name : string;
  file_size : JsValue;
  id : Z;
  is_base : Z;
  is_ui : Z;
  logo : string;
  name : string;
  type : Z;
  version : string;
  version_code : Z
}.
End ExecuteComponent.

Module ImagefsRef.
Record t : Type := {
  display_name : string;
  download_url : string;
  file_md5 : string;
  file_name : string;
  file_size : string;
  id : Z;
  logo : string;
  name : string;
  version : string;
  version_code : Z
}.
End ImagefsRef.

Module ContainerRef.
Record t : Type := {
  blurb : string;
  display_name : string;
  download_url : string;
  file_md5 : string;
  file_name : string;
  file_size : string;
  framework : Framework;
  framework_type : FrameworkType;
  id : Z;
  is_steam : Z;
  logo : string;
  name : string;
  sub_data : option SubData.t;
  version : string;
  version_code : Z
}.
End ContainerRef.

Module ExecuteScriptData.
Record t : Type := {
  audio_driver : Z;
  component : list ExecuteComponent.t;
  component_ids : list Z;
  container : ContainerRef.t;
  container_id : Z;
  controller : Controller.t;
  cpu_limitations : Z;
  directx_panel : Z;
  environment : string;
  execution_context : ExecutionContext.t;
  imagefs : ImagefsRef.t;
  launch_windowed_mode : Z;
  start_param : string;
  translations : Translations.t;
  video_memory : Z
}.
End ExecuteScriptData.

Inductive ScriptVariant : Type := generic | qualcomm.

(* ------------------------------------------------------------------ *)
(** ** Generators *)
(* ------------------------------------------------------------------ *)

(** [getTimestamp()]: [String(Math.floor(Date.now() / 1000))], with the
    clock reading [now] (milliseconds) as an input. *)
Definition getTimestamp (now : Z) : string := showNumber (now / 1000).

(** [component.display_name ?? ''] on a field declared [string] is the
    field itself. *)
Definition toManifestComponent (component : Component.t) : ManifestComponent.t :=
  {| ManifestComponent.display_name := Component.display_name component;
     ManifestComponent.download_url := Component.download_url component;
     ManifestComponent.file_md5 := Component.file_md5 component;
     ManifestComponent.file_name := Component.file_name component;
     ManifestComponent.file_size := Component.file_size component;
     ManifestComponent.id := Component.id component;
     ManifestComponent.is_ui := 1;
     ManifestComponent.logo := Component.logo component;
     ManifestComponent.name := Component.name component;
     ManifestComponent.type := Component.type component;
     ManifestComponent.version := Component.version component;
     ManifestComponent.version_code := Component.version_code component |}.

(** [generateManifest(registry, type)]: [meta] is read from the table first
    and dereferenced when the document is built. *)
Definition generateManifest (registry : ComponentRegistry.t) (type : Z)
  : completion (ApiResponse.t ManifestData.t) :=
  let meta := COMPONENT_TYPE_META type in
  let components := ComponentRegistry.getByType registry type in
  let sorted := ComponentRegistry.sortByIdDescending components in
  let manifestComponents := map toManifestComponent sorted in
  meta <- deref meta ;;
  Normal
    {| ApiResponse.code := 200;
       ApiResponse.msg := "Success";
       ApiResponse.data :=
         {| ManifestData.type := type;
            ManifestData.type_name := TypeMeta.name meta;
            ManifestData.display_name := TypeMeta.displayName meta;
            ManifestData.total := Z.of_nat (List.length manifestComponents);
            ManifestData.components := manifestComponents |} |}.

(** One iteration of the loop of [generateIndex]. *)
Definition pushCategory (registry : ComponentRegistry.t)
    (acc : completion (list IndexCategory.t)) (type : Z)
  : completion (list IndexCategory.t) :=
  categories <- acc ;;
  meta <- deref (COMPONENT_TYPE_META type) ;;
  let count := ComponentRegistry.getCountByType registry type in
  Normal
    (categories ++
     [ {| IndexCategory.count := count;
          IndexCategory.display_name := TypeMeta.displayName meta;
          IndexCategory.manifest_url :=
            ("/components/" ++ TypeMeta.manifest meta)%string;
          IndexCategory.name := TypeMeta.name meta;
          IndexCategory.type := type |} ]).

(** [generateIndex(registry)] *)
Definition generateIndex (registry : ComponentRegistry.t)
  : completion (ApiResponse.t IndexData.t) :=
  categories <- fold_left (pushCategory registry) (upto 1 7) (Normal []) ;;
  Normal
    {| ApiResponse.code := 200;
       ApiResponse.msg := "Success";
       ApiResponse.data :=
         {| IndexData.categories := categories;
            IndexData.total_components :=
              ComponentRegistry.getTotalCount registry |} |}.

Definition toDefaultComponentEntry (component : Component.t)
  : DefaultComponentEntry.t :=
  {| DefaultComponentEntry.blurb := nullish (Component.blurb component) EmptyString;
     DefaultComponentEntry.display_name := Component.display_name component;
     DefaultComponentEntry.download_url := Component.download_url component;
     DefaultComponentEntry.file_md5 := Component.file_md5 component;
     DefaultComponentEntry.file_name := Component.file_name component;
     DefaultComponentEntry.file_size := Component.file_size component;
     DefaultComponentEntry.id := Component.id component;
     DefaultComponentEntry.logo := Component.logo component;
     DefaultComponentEntry.name := Component.name component;
     DefaultComponentEntry.type := Component.type component;
     DefaultComponentEntry.version := Component.version component;
     DefaultComponentEntry.version_code := Component.version_code component |}.

Definition createEmptyComponent : DefaultComponentEntry.t :=
  {| DefaultComponentEntry.blurb := EmptyString;
     DefaultComponentEntry.display_name := EmptyString;
     DefaultComponentEntry.download_url := EmptyString;
     DefaultComponentEntry.file_md5 := EmptyString;
     DefaultComponentEntry.file_name := EmptyString;
     DefaultComponentEntry.file_size := JsString EmptyString;
     DefaultComponentEntry.id := 0;
     DefaultComponentEntry.logo := EmptyString;
     DefaultComponentEntry.name := EmptyString;
     DefaultComponentEntry.type := 0;
     DefaultComponentEntry.version := EmptyString;
     DefaultComponentEntry.version_code := 0 |}.

Definition toExecuteComponent (component : Component.t) : ExecuteComponent.t :=
  {| ExecuteComponent.base_type := 0;
     ExecuteComponent.blurb := nullish (Component.blurb component) EmptyString;
     ExecuteComponent.display_name := Component.display_name component;
     ExecuteComponent.download_url := Component.download_url component;
     ExecuteComponent.file_md5 := Component.file_md5 component;
     ExecuteComponent.file_name := Component.file_name component;
     ExecuteComponent.file_size := Component.file_size component;
     ExecuteComponent.id := Component.id component;
     ExecuteComponent.is_base := 0;
     ExecuteComponent.is_ui := 1;
     ExecuteComponent.logo := Component.logo component;
     ExecuteComponent.name := Component.name component;
     ExecuteComponent.type := Component.type component;
     ExecuteComponent.version := Component.version component;
     ExecuteComponent.version_code := Component.version_code component |}.

Definition toImagefsRef (imagefs : Imagefs.t) : ImagefsRef.t :=
  {| ImagefsRef.display_name := Imagefs.display_name imagefs;
     ImagefsRef.download_url := Imagefs.download_url imagefs;
     ImagefsRef.file_md5 := Imagefs.file_md5 imagefs;
     ImagefsRef.file_name := Imagefs.file_name imagefs;
     ImagefsRef.file_size := Imagefs.file_size imagefs;
     ImagefsRef.id := Imagefs.id imagefs;
     ImagefsRef.logo := Imagefs.logo imagefs;
     ImagefsRef.name := Imagefs.name imagefs;
     ImagefsRef.version := Imagefs.version imagefs;
     ImagefsRef.version_code := Imagefs.version_code imagefs |}.

Definition toContainerRef (container : Container.t) : ContainerRef.t :=
  {| ContainerRef.blurb := EmptyString;
     ContainerRef.display_name := Container.display_name container;
     ContainerRef.download_url := Container.download_url container;
     ContainerRef.file_md5 := Container.file_md5 container;
     ContainerRef.file_name := Container.file_name container;
     ContainerRef.file_size := Container.file_size container;
     ContainerRef.framework := Container.framework container;
     ContainerRef.framework_type := Container.framework_type container;
     ContainerRef.id := Container.id container;
     ContainerRef.is_steam := Container.is_steam container;
     ContainerRef.logo := Container.logo container;
     ContainerRef.name := Container.name container;
     ContainerRef.sub_data := Container.sub_data container;
     ContainerRef.version := Container.version container;
     ContainerRef.version_code := Container.version_code container |}.

(** [generateDefaultComponent(registry, timestamp?)].  [registry.defaults!]
    is unchecked at run time: reading [defaults.dxvk] throws when the
    defaults were never loaded. *)
Definition generateDefaultComponent (now : Z) (registry : ComponentRegistry.t)
    (timestamp : option string)
  : completion (ApiResponseWithTime.t DefaultComponentData.t) :=
  defaults <- deref (ComponentRegistry.defaults registry) ;;
  let dxvk := ComponentRegistry.getById registry (Defaults.dxvk defaults) in
  let vkd3d := ComponentRegistry.getById registry (Defaults.vkd3d defaults) in
  let steamClient :=
    ComponentRegistry.getById registry (Defaults.steamClient defaults) in
  match dxvk, vkd3d, steamClient with
  | Some dxvk, Some vkd3d, Some steamClient =>
      Normal
        {| ApiResponseWithTime.code := 200;
           ApiResponseWithTime.msg := "Success";
           ApiResponseWithTime.data :=
             {| DefaultComponentData.container := null;
                DefaultComponentData.gpu := null;
                DefaultComponentData.dxvk := toDefaultComponentEntry dxvk;
                DefaultComponentData.vkd3d := toDefaultComponentEntry vkd3d;
                DefaultComponentData.translator := createEmptyComponent;
                DefaultComponentData.steamClient :=
                  toDefaultComponentEntry steamClient |};
           ApiResponseWithTime.time := orElse timestamp (getTimestamp now) |}
  | _, _, _ => Throw (Error "Default components not found in registry")
  end.

(** The loop [for (const id of componentIds)] of [generateExecuteScript]. *)
Definition resolveComponents (registry : ComponentRegistry.t)
    (componentIds : list Z) : list ExecuteComponent.t :=
  fold_left
    (fun components id =>
       match ComponentRegistry.getById registry id with
       | Some component => components ++ [toExecuteComponent component]
       | None => components
       end)
    componentIds [].

(** [generateExecuteScript(registry, variant, timestamp?)].  The three
    non-null assertions are unchecked at run time; each of [defaults],
    [executionConfig] and [imagefs] throws [TypeError] at its first property
    read when it is [null]. *)
Definition generateExecuteScript (now : Z) (registry : ComponentRegistry.t)
    (variant : ScriptVariant) (timestamp : option string)
  : completion (ApiResponseWithTime.t ExecuteScriptData.t) :=
  defaults <- deref (ComponentRegistry.defaults registry) ;;
  container <-
    match
      find (fun c => Container.id c =? Defaults.container defaults)
        (ComponentRegistry.containers registry)
    with
    | Some container => Normal container
    | None =>
        Throw
          (Error
             ("Container " ++ showNumber (Defaults.container defaults)
              ++ " not found")%string)
    end ;;
  let componentIds :=
    match variant with
    | generic => Defaults.genericComponentIds defaults
    | qualcomm => Defaults.qualcommComponentIds defaults
    end in
  let executionContext :=
    match variant with
    | generic => Defaults.genericContext defaults
    | qualcomm => Defaults.qualcommContext defaults
    end in
  let components := resolveComponents registry componentIds in
  executionConfig <- deref (ComponentRegistry.executionConfig registry) ;;
  imagefs <- deref (ComponentRegistry.imagefs registry) ;;
  Normal
    {| ApiResponseWithTime.code := 200;
       ApiResponseWithTime.msg := "Success";
       ApiResponseWithTime.data :=
         {| ExecuteScriptData.audio_driver :=
              ExecutionConfig.audio_driver executionConfig;
            ExecuteScriptData.component := components;
            ExecuteScriptData.component_ids := componentIds;
            ExecuteScriptData.container := toContainerRef container;
            ExecuteScriptData.container_id := Defaults.container defaults;
            ExecuteScriptData.controller :=
              ExecutionConfig.controller executionConfig;
            ExecuteScriptData.cpu_limitations :=
              ExecutionConfig.cpu_limitations executionConfig;
            ExecuteScriptData.directx_panel :=
              ExecutionConfig.directx_panel executionConfig;
            ExecuteScriptData.environment :=
              ExecutionConfig.environment executionConfig;
            ExecuteScriptData.execution_context := executionContext;
            ExecuteScriptData.imagefs := toImagefsRef imagefs;
            ExecuteScriptData.launch_windowed_mode :=
              ExecutionConfig.launch_windowed_mode executionConfig;
            ExecuteScriptData.start_param :=
              ExecutionConfig.start_param executionConfig;
            ExecuteScriptData.translations :=
              ExecutionConfig.translations executionConfig;
            ExecuteScriptData.video_memory :=
              ExecutionConfig.video_memory executionConfig |};
       ApiResponseWithTime.time := orElse timestamp (getTimestamp now) |}.

(* ------------------------------------------------------------------ *)
(** ** The remaining generators *)
(* ------------------------------------------------------------------ *)

Module AllComponentEntry.
Record t : Type := {
  display_name : string;
  download_url : string;
  file_md5 : string;
  file_name : string;
  file_size : JsValue;
  id : Z;
  is_ui : Z;
  logo : string;
  name : string;
  type : Z;
  version : string;
  version_code : Z
}.
End AllComponentEntry.

Module AllComponentListData.
Record t : Type := {
  list : List.list AllComponentEntry.t;
  total : Z
}.
End AllComponentListData.

Module ComponentListEntry.
Record t : Type := {
  blurb : string;
  display_name : string;
  download_url : string;
  file_md5 : string;
  file_name : string;
  file_size : JsValue;
  gpu_range : string;
  id : Z;
  logo : string;
  name : string;
  type : Z;
  version : string;
  version_code : Z
}.
End ComponentListEntry.

Module ComponentListData.
Record t : Type := {
  list : List.list ComponentListEntry.t;
  total : Z;
  page : Z;
  pageSize : Z
}.
End ComponentListData.

Module DownloadEntry.
Record t : Type := {
  download_url : string;
  file_md5 : string;
  file_name : string;
  file_size : JsValue;
  name : string;
  type : Z;
  version : string
}.
End DownloadEntry.

Module DownloadsData.
Record t : Type := {
  downloads : list DownloadEntry.t;
  total : Z
}.
End DownloadsData.

Definition toAllComponentEntry (component : Component.t) : AllComponentEntry.t :=
  {| AllComponentEntry.display_name := Component.display_name component;
     AllComponentEntry.download_url := Component.download_url component;
     AllComponentEntry.file_md5 := Component.file_md5 component;
     AllComponentEntry.file_name := Component.file_name component;
     AllComponentEntry.file_size := Component.file_size component;
     AllComponentEntry.id := Component.id component;
     AllComponentEntry.is_ui := 1;
     AllComponentEntry.logo := Component.logo component;
     AllComponentEntry.name := Component.name component;
     AllComponentEntry.type := Component.type component;
     AllComponentEntry.version := Component.version component;
     AllComponentEntry.version_code := Component.version_code component |}.

Definition toComponentListEntry (component : Component.t)
  : ComponentListEntry.t :=
  {| ComponentListEntry.blurb := nullish (Component.blurb component) EmptyString;
     ComponentListEntry.display_name := Component.display_name component;
     ComponentListEntry.download_url := Component.download_url component;
     ComponentListEntry.file_md5 := Component.file_md5 component;
     ComponentListEntry.file_name := Component.file_name component;
     ComponentListEntry.file_size := Component.file_size component;
     ComponentListEntry.gpu_range :=
       nullish (Component.gpu_range component) EmptyString;
     ComponentListEntry.id := Component.id component;
     ComponentListEntry.logo := Component.logo component;
     ComponentListEntry.name := Component.name component;
     ComponentListEntry.type := Component.type component;
     ComponentListEntry.version := Component.version component;
     ComponentListEntry.version_code := Component.version_code component |}.

(** [generateAllComponentList(registry, timestamp?)] *)
Definition generateAllComponentList (now : Z) (registry : ComponentRegistry.t)
    (timestamp : option string)
  : ApiResponseWithTime.t AllComponentListData.t :=
  let allComponents := ComponentRegistry.getAllComponents registry in
  let sorted := ComponentRegistry.sortByTypeAndIdDescending allComponents in
  let list := map toAllComponentEntry sorted in
  {| ApiResponseWithTime.code := 200;
     ApiResponseWithTime.msg := "Success";
     ApiResponseWithTime.data :=
       {| AllComponentListData.list := list;
          AllComponentListData.total := Z.of_nat (List.length list) |};
     ApiResponseWithTime.time := orElse timestamp (getTimestamp now) |}.

(** [generateComponentList(registry, timestamp?)]; [ComponentType.BOX64_FEX]
    is 1. *)
Definition generateComponentList (now : Z) (registry : ComponentRegistry.t)
    (timestamp : option string)
  : ApiResponseWithTime.t ComponentListData.t :=
  let type1Components := ComponentRegistry.getByType registry 1 in
  let sorted := ComponentRegistry.sortByIdDescending type1Components in
  let list := map toComponentListEntry sorted in
  {| ApiResponseWithTime.code := 200;
     ApiResponseWithTime.msg := "Success";
     ApiResponseWithTime.data :=
       {| ComponentListData.list := list;
          ComponentListData.total := Z.of_nat (List.length list);
          ComponentListData.page := 1;
          ComponentListData.pageSize := 10 |};
     ApiResponseWithTime.time := orElse timestamp (getTimestamp now) |}.

Definition toOrderedContainer (container : Container.t) : Container.t :=
  {| Container.id := Container.id container;
     Container.name := Container.name container;
     Container.version := Container.version container;
     Container.version_code := Container.version_code container;
     Container.file_name := Container.file_name container;
     Container.file_md5 := Container.file_md5 container;
     Container.file_size := Container.file_size container;
     Container.download_url := Container.download_url container;
     Container.logo := Container.logo container;
     Container.display_name := Container.display_name container;
     Container.framework := Container.framework container;
     Container.framework_type := Container.framework_type container;
     Container.is_steam := Container.is_steam container;
     Container.sub_data := Container.sub_data container |}.

(** [generateContainerList(registry, timestamp?)] *)
Definition generateContainerList (now : Z) (registry : ComponentRegistry.t)
    (timestamp : option string)
  : ApiResponseWithTime.t (list Container.t) :=
  let orderedContainers :=
    map toOrderedContainer (ComponentRegistry.containers registry) in
  {| ApiResponseWithTime.code := 200;
     ApiResponseWithTime.msg := "Success";
     ApiResponseWithTime.data := orderedContainers;
     ApiResponseWithTime.time := orElse timestamp (getTimestamp now) |}.

(** [generateImagefsDetail(registry, timestamp?)]: [registry.imagefs!] is
    dereferenced when the ordered copy is built. *)
Definition generateImagefsDetail (now : Z) (registry : ComponentRegistry.t)
    (timestamp : option string)
  : completion (ApiResponseWithTime.t Imagefs.t) :=
  imagefs <- deref (ComponentRegistry.imagefs registry) ;;
  let orderedImagefs :=
    {| Imagefs.id := Imagefs.id imagefs;
       Imagefs.name := Imagefs.name imagefs;
       Imagefs.version := Imagefs.version imagefs;
       Imagefs.version_code := Imagefs.version_code imagefs;
       Imagefs.file_name := Imagefs.file_name imagefs;
       Imagefs.file_md5 := Imagefs.file_md5 imagefs;
       Imagefs.file_size := Imagefs.file_size imagefs;
       Imagefs.download_url := Imagefs.download_url imagefs;
       Imagefs.logo := Imagefs.logo imagefs;
       Imagefs.display_name := Imagefs.display_name imagefs;
       Imagefs.upgrade_msg := Imagefs.upgrade_msg imagefs;
       Imagefs.blurb := Imagefs.blurb imagefs |} in
  Normal
    {| ApiResponseWithTime.code := 200;
       ApiResponseWithTime.msg := "Success";
       ApiResponseWithTime.data := orderedImagefs;
       ApiResponseWithTime.time := orElse timestamp (getTimestamp now) |}.

(** One iteration of the loop of [generateAllManifests]: the manifest is
    generated first, then stored under [meta.manifest]. *)
Definition setManifest (registry : ComponentRegistry.t)
    (acc : completion (JsMap.t string (ApiResponse.t ManifestData.t)))
    (type : Z)
  : completion (JsMap.t string (ApiResponse.t ManifestData.t)) :=
  manifests <- acc ;;
  let meta := COMPONENT_TYPE_META type in
  manifest <- generateManifest registry type ;;
  meta <- deref meta ;;
  Normal (JsMap.set manifests (TypeMeta.manifest meta) manifest).

(** [generateAllManifests(registry)] *)
Definition generateAllManifests (registry : ComponentRegistry.t)
  : completion (JsMap.t string (ApiResponse.t ManifestData.t)) :=
  fold_left (setManifest registry) (upto 1 7) (Normal JsMap.empty).

Definition toDownloadEntry (component : Component.t) : DownloadEntry.t :=
  {| DownloadEntry.download_url := Component.download_url component;
     DownloadEntry.file_md5 := Component.file_md5 component;
     DownloadEntry.file_name := Component.file_name component;
     DownloadEntry.file_size := Component.file_size component;
     DownloadEntry.name := Component.name component;
     DownloadEntry.type := Component.type component;
     DownloadEntry.version := Component.version component |}.

(** [generateDownloads(registry)].  [String.prototype.localeCompare] depends
    on the collation of the host; it is a parameter here. *)
Section Downloads.
Variable localeCompare : string -> string -> Z.

Definition compareTypeThenName (a b : Component.t) : Z :=
  if negb (Component.type a =? Component.type b)
  then Component.type a - Component.type b
  else localeCompare (Component.name a) (Component.name b).

Definition generateDownloads (registry : ComponentRegistry.t)
  : ApiResponse.t DownloadsData.t :=
  let allComponents := ComponentRegistry.getAllComponents registry in
  let sorted := arraySort compareTypeThenName allComponents in
  let downloads := map toDownloadEntry sorted in
  {| ApiResponse.code := 200;
     ApiResponse.msg := "Success";
     ApiResponse.data :=
       {| DownloadsData.downloads := downloads;
          DownloadsData.total := Z.of_nat (List.length downloads) |} |}.
End Downloads.

(* ------------------------------------------------------------------ *)
(** ** Source records to components ([src/parsers]) *)
(* ------------------------------------------------------------------ *)

(** [interface XmlEntry], the fields the parser reads.  [id] keeps its
    run-time tag because the parser tests [typeof entry.id]; a key that is
    absent or [null] in the JSON is [None]. *)
Module XmlEntry.
Record t : Type := {
  id : JsValue;
  name : string;
  type : Z;
  version : string;
  version_code : Z;
  file_name : string;
  file_md5 : string;
  file_size : Z;
  download_url : string;
  logo : string;
  is_steam : option Z;
  display_name : option string;
  blurb : option string
}.
End XmlEntry.

(** [v || d] on numbers: zero selects [d]. *)
Definition orElseNumber (v d : Z) : Z := if v =? 0 then d else v.

(** [if (entry.blurb) component.blurb = entry.blurb]: the key is set only
    for a non-empty string. *)
Definition truthyString (o : option string) : option string :=
  match o with
  | Some s => if truthy s then Some s else None
  | None => None
  end.



(** [interface CustomComponentDefinition]; [file_size] as the JSON holds
    it. *)
Module CustomComponentDefinition.
Record t : Type := {
  id : Z;
  name : string;
  type : Z;
  version : string;
  version_code : option Z;
  file_name : string;
  file_md5 : string;
  file_size : JsValue;
  display_name : option string;
  blurb : option string
}.
End CustomComponentDefinition.

(** The body of the loop of [parseCustomComponents]. *)
Definition componentOfCustom (config : BuildConfig.t)
    (custom : CustomComponentDefinition.t) : Component.t :=
  {| Component.id := CustomComponentDefinition.id custom;
     Component.name := CustomComponentDefinition.name custom;
     Component.type := CustomComponentDefinition.type custom;
     Component.version := CustomComponentDefinition.version custom;
     Component.version_code :=
       match CustomComponentDefinition.version_code custom with
       | Some v => orElseNumber v 1
       | None => 1
       end;
     Component.file_name := CustomComponentDefinition.file_name custom;
     Component.file_md5 := CustomComponentDefinition.file_md5 custom;
     Component.file_size := CustomComponentDefinition.file_size custom;
     Component.download_url :=
       (BuildConfig.cdnBaseUrl config ++ "/"
        ++ CustomComponentDefinition.file_name custom)%string;
     Component.logo := BuildConfig.logoUrl config;
     Component.display_name :=
       orElse (CustomComponentDefinition.display_name custom)
         (CustomComponentDefinition.name custom);
     Component.blurb := truthyString (CustomComponentDefinition.blurb custom);
     Component.gpu_range := None;
     Component.is_steam := None |}.

(** [parseCustomComponents(filePath, config)] on the parsed content of the
    file: [None] when the file does not exist, otherwise its [components]
    array. *)
Definition parseCustomComponents (file : option (list CustomComponentDefinition.t))
    (config : BuildConfig.t) : list Component.t :=
  match file with
  | None => []
  | Some definitions =>
      fold_left
        (fun components custom => components ++ [componentOfCustom config custom])
        definitions []
  end.

(* ------------------------------------------------------------------ *)
(** ** Vocabulary of the specification *)
(* ------------------------------------------------------------------ *)

(** Registry states a program can produce: construct, add components (the
    state left by a call counts whether or not the call threw), assign the
    public data fields.  The configuration stays the one the constructor
    received.  [P] restricts the components that are passed in. *)
Inductive reachable (P : Component.t -> Prop) (cfg : BuildConfig.t)
  : ComponentRegistry.t -> Prop :=
| reach_new : reachable P cfg (ComponentRegistry.new cfg)
| reach_add : forall r c,
    reachable P cfg r -> P c ->
    reachable P cfg (ComponentRegistry.heap (ComponentRegistry.addComponent r c))
| reach_load : forall r cs im d ec,
    reachable P cfg r -> reachable P cfg (ComponentRegistry.load r cs im d ec).

Definition anyComponent (c : Component.t) : Prop := True.

Definition validType (c : Component.t) : Prop := 1 <= Component.type c <= 7.

(** The rewriting invariant of a stored component. *)
Definition rewritten (cfg : BuildConfig.t) (c : Component.t) : Prop :=
  Component.download_url c
    = (BuildConfig.cdnBaseUrl cfg ++ "/" ++ Component.file_name c)%string
  /\ Component.logo c = BuildConfig.logoUrl cfg.

(** A component that some accessor of the registry can return. *)
Definition retrievable (r : ComponentRegistry.t) (c : Component.t) : Prop :=
  (exists id, ComponentRegistry.getById r id = Some c)
  \/ (exists name, ComponentRegistry.getByName r name = Some c)
  \/ (exists type, In c (ComponentRegistry.getByType r type))
  \/ In c (ComponentRegistry.getAllComponents r).

Definition hasType (type : Z) (c : Component.t) : bool :=
  Component.type c =? type.

Definition hasId (id : Z) (c : Component.t) : bool := Component.id c =? id.

(** Registered components of one type, in registration order. *)
Definition registeredOfType (r : ComponentRegistry.t) (type : Z)
  : list Component.t :=
  filter (hasType type) (ComponentRegistry.getAllComponents r).

Definition idDescending (a b : Component.t) : Prop :=
  Component.id a >= Component.id b.

(** The comparator [(a, b) => b.id - a.id] of [sortByIdDescending]. *)
Definition compareIds (a b : Component.t) : Z :=
  Component.id b - Component.id a.

(** Sum of the per-type counts over the seven types. *)
Definition sumCountsByType (r : ComponentRegistry.t) : Z :=
  fold_right Z.add 0 (map (ComponentRegistry.getCountByType r) (upto 1 7)).

(** The components a list of ids resolves to, unresolved ids skipped. *)
Fixpoint resolved (r : ComponentRegistry.t) (ids : list Z) : list Component.t :=
  match ids with
  | [] => []
  | id :: rest =>
      match ComponentRegistry.getById r id with
      | Some c => c :: resolved r rest
      | None => resolved r rest
      end
  end.

(** A string made of decimal digits only. *)
Definition isDigit (c : ascii) : bool :=
  let n := N_of_ascii c in ((48 <=? n) && (n <=? 57))%N.

Fixpoint allDigits (s : string) : bool :=
  match s with
  | EmptyString => true
  | String c s' => isDigit c && allDigits s'
  end.

Definition isDigitString (v : JsValue) : bool :=
  match v with
  | JsString s => allDigits s
  | _ => false
  end.

(** The messages [validate] uses. *)
Definition md5Error (c : Component.t) : string :=
  (ComponentRegistry.componentLabel c ++ ": invalid MD5 hash")%string.

Definition fileSizeError (c : Component.t) : string :=
  (ComponentRegistry.componentLabel c ++ ": file_size must be string")%string.

Definition isString (v : JsValue) : bool :=
  match v with
  | JsString _ => true
  | _ => false
  end.

(** What holds of every reachable registry: each stored component is the
    rewritten form of a component that was passed in, the map is keyed by
    the components' own ids without repetition, the partition of each of the
    seven types lists the stored components of that type in registration
    order, and the two secondary indexes only hold stored components. *)
Record invariant (P : Component.t -> Prop) (cfg : BuildConfig.t)
    (r : ComponentRegistry.t) : Prop := {
  inv_config : ComponentRegistry.config r = cfg;
  inv_origin :
    Forall (fun c => exists c0, P c0 /\ c = ComponentRegistry.rewrite cfg c0)
      (ComponentRegistry.getAllComponents r);
  inv_keys :
    JsMap.keys (ComponentRegistry.components r)
    = map Component.id (ComponentRegistry.getAllComponents r);
  inv_nodup : NoDup (JsMap.keys (ComponentRegistry.components r));
  inv_partition :
    forall type, 1 <= type <= 7 ->
      JsMap.get (ComponentRegistry.componentsByType r) type
      = Some (registeredOfType r type);
  inv_byType :
    forall type partition,
      JsMap.get (ComponentRegistry.componentsByType r) type = Some partition ->
      incl partition (ComponentRegistry.getAllComponents r);
  inv_byName :
    forall name c,
      JsMap.get (ComponentRegistry.componentsByName r) name = Some c ->
      In c (ComponentRegistry.getAllComponents r)
}.

(** The violations [validate] looks for, one rule per check of the source,
    each with the message the source pushes for it. *)
Inductive violation (r : ComponentRegistry.t) : string -> Prop :=
| no_components :
    ComponentRegistry.getAllComponents r = [] ->
    violation r "No components loaded"
| no_imagefs :
    ComponentRegistry.imagefs r = None -> violation r "Imagefs not loaded"
| no_containers :
    ComponentRegistry.containers r = [] -> violation r "No containers loaded"
| no_defaults :
    ComponentRegistry.defaults r = None -> violation r "Defaults not loaded"
| no_executionConfig :
    ComponentRegistry.executionConfig r = None ->
    violation r "Execution config not loaded"
| bad_file_size : forall c,
    In c (ComponentRegistry.getAllComponents r) ->
    isString (Component.file_size c) = false ->
    violation r (fileSizeError c)
| bad_md5 : forall c,
    In c (ComponentRegistry.getAllComponents r) ->
    md5RegexTest (Component.file_md5 c) = false ->
    violation r (md5Error c)
| missing_name : forall c,
    In c (ComponentRegistry.getAllComponents r) ->
    Component.name c = EmptyString ->
    violation r (ComponentRegistry.componentLabel c ++ ": missing name")%string
| missing_file_name : forall c,
    In c (ComponentRegistry.getAllComponents r) ->
    Component.file_name c = EmptyString ->
    violation r
      (ComponentRegistry.componentLabel c ++ ": missing file_name")%string
| missing_download_url : forall c,
    In c (ComponentRegistry.getAllComponents r) ->
    Component.download_url c = EmptyString ->
    violation r
      (ComponentRegistry.componentLabel c ++ ": missing download_url")%string
| dangling_dxvk : forall d,
    ComponentRegistry.defaults r = Some d ->
    ComponentRegistry.getById r (Defaults.dxvk d) = None ->
    violation r
      ("Default dxvk ID " ++ showNumber (Defaults.dxvk d) ++ " not found")%string
| dangling_vkd3d : forall d,
    ComponentRegistry.defaults r = Some d ->
    ComponentRegistry.getById r (Defaults.vkd3d d) = None ->
    violation r
      ("Default vkd3d ID " ++ showNumber (Defaults.vkd3d d) ++ " not found")%string
| dangling_steamClient : forall d,
    ComponentRegistry.defaults r = Some d ->
    ComponentRegistry.getById r (Defaults.steamClient d) = None ->
    violation r
      ("Default steamClient ID " ++ showNumber (Defaults.steamClient d)
       ++ " not found")%string
| dangling_generic : forall d id,
    ComponentRegistry.defaults r = Some d ->
    In id (Defaults.genericComponentIds d) ->
    ComponentRegistry.getById r id = None ->
    violation r
      ("Generic script component ID " ++ showNumber id ++ " not found")%string
| dangling_qualcomm : forall d id,
    ComponentRegistry.defaults r = Some d ->
    In id (Defaults.qualcommComponentIds d) ->
    ComponentRegistry.getById r id = None ->
    violation r
      ("Qualcomm script component ID " ++ showNumber id ++ " not found")%string.

(** The registry after a series of [addComponent] calls, whatever the
    completion of each. *)
Definition addAll (r : ComponentRegistry.t) (cs : list Component.t)
  : ComponentRegistry.t :=
  fold_left
    (fun r c => ComponentRegistry.heap (ComponentRegistry.addComponent r c))
    cs r.

(* ------------------------------------------------------------------ *)
(** ** Sample data *)
(* ------------------------------------------------------------------ *)

Definition sampleConfig : BuildConfig.t :=
  {| BuildConfig.cdnBaseUrl := "https://cdn.example/Components";
     BuildConfig.logoUrl := "https://cdn.example/logo.png" |}.

Definition sampleMd5 : string := "3d9d01362622a782a27ae691427b786c".

(** A component as a source delivers it: its own download URL and logo. *)
Definition sampleComponent (id type : Z) (name md5 : string) (size : JsValue)
  : Component.t :=
  {| Component.id := id;
     Component.name := name;
     Component.type := type;
     Component.version := "1.0.0";
     Component.version_code := 1;
     Component.file_name := (name ++ ".tzst")%string;
     Component.file_md5 := md5;
     Component.file_size := size;
     Component.download_url := "https://upstream.example/file";
     Component.logo := "https://upstream.example/logo";
     Component.display_name := name;
     Component.blurb := None;
     Component.gpu_range := None;
     Component.is_steam := None |}.

Definition dxvkA : Component.t :=
  sampleComponent 1 3 "dxvk-a" sampleMd5 (JsString "41192642").

Definition dxvkB : Component.t :=
  sampleComponent 2 3 "dxvk-b" sampleMd5 (JsString "500").

Definition dxvkAgain : Component.t :=
  sampleComponent 1 4 "other" sampleMd5 (JsString "7").

Definition badMd5A : Component.t :=
  sampleComponent 10 1 "box-a" "XYZ" (JsString "10").

Definition badMd5B : Component.t :=
  sampleComponent 11 2 "drv-b" "3d9d01362622a782a27ae691427b786" (JsString "10").

Definition oddSize : Component.t :=
  sampleComponent 20 1 "box-odd" sampleMd5 (JsString "12a").

Definition numericSize : Component.t :=
  sampleComponent 21 1 "box-num" sampleMd5 (JsNumber 41192642).

Definition sampleContainer : Container.t :=
  {| Container.id := 100;
     Container.name := "wine";
     Container.version := "9.0";
     Container.version_code := 9;
     Container.file_name := "wine.tzst";
     Container.file_md5 := sampleMd5;
     Container.file_size := "1";
     Container.download_url := "https://cdn.example/wine.tzst";
     Container.logo := "https://cdn.example/logo.png";
     Container.display_name := "Wine";
     Container.framework := X64;
     Container.framework_type := stable;
     Container.is_steam := 0;
     Container.sub_data := None |}.

Definition sampleImagefs : Imagefs.t :=
  {| Imagefs.id := 1;
     Imagefs.name := "imagefs";
     Imagefs.version := "1.0";
     Imagefs.version_code := 1;
     Imagefs.file_name := "imagefs.txz";
     Imagefs.file_md5 := sampleMd5;
     Imagefs.file_size := "2";
     Imagefs.download_url := "https://cdn.example/imagefs.txz";
     Imagefs.logo := "https://cdn.example/logo.png";
     Imagefs.display_name := "Imagefs";
     Imagefs.upgrade_msg := "upgrade";
     Imagefs.blurb := "base" |}.

Definition sampleContext : ExecutionContext.t :=
  {| ExecutionContext.params := ("a", 1, "b", 2, "c", 3);
     ExecutionContext.script_id := 1;
     ExecutionContext.timestamp := 0 |}.

Definition sampleExecutionConfig : ExecutionConfig.t :=
  {| ExecutionConfig.translations :=
       {| Translations.box64 := []; Translations.fex := [] |};
     ExecutionConfig.controller :=
       {| Controller.dinput := true;
          Controller.xinput := true;
          Controller.xboxLayout := false;
          Controller.vibration := false |};
     ExecutionConfig.audio_driver := 0;
     ExecutionConfig.cpu_limitations := 0;
     ExecutionConfig.video_memory := 0;
     ExecutionConfig.directx_panel := 0;
     ExecutionConfig.launch_windowed_mode := 0;
     ExecutionConfig.start_param := "start";
     ExecutionConfig.environment := "env" |}.

(** Defaults naming the ids 1, 2 and 3, the container 100, and a generic
    id list in which 99 is not registered anywhere below. *)
Definition sampleDefaults : Defaults.t :=
  {| Defaults.dxvk := 1;
     Defaults.vkd3d := 2;
     Defaults.steamClient := 3;
     Defaults.container := 100;
     Defaults.genericComponentIds := [2; 99; 1];
     Defaults.qualcommComponentIds := [1];
     Defaults.genericContext := sampleContext;
     Defaults.qualcommContext := sampleContext |}.

(** Two components with a malformed MD5 around a well-formed one; nothing
    else is loaded. *)
Definition md5Registry : ComponentRegistry.t :=
  addAll (ComponentRegistry.new sampleConfig) [badMd5A; dxvkA; badMd5B].

(** A fully loaded registry whose only component has the file size
    ["12a"]. *)
Definition oddDefaults : Defaults.t :=
  {| Defaults.dxvk := 20;
     Defaults.vkd3d := 20;
     Defaults.steamClient := 20;
     Defaults.container := 100;
     Defaults.genericComponentIds := [20];
     Defaults.qualcommComponentIds := [20];
     Defaults.genericContext := sampleContext;
     Defaults.qualcommContext := sampleContext |}.

Definition oddRegistry : ComponentRegistry.t :=
  ComponentRegistry.load
    (addAll (ComponentRegistry.new sampleConfig) [oddSize])
    [sampleContainer] (Some sampleImagefs) (Some oddDefaults)
    (Some sampleExecutionConfig).

(** The same with a numeric file size, as an override file can deliver it. *)
Definition numericRegistry : ComponentRegistry.t :=
  ComponentRegistry.load
    (addAll (ComponentRegistry.new sampleConfig) [numericSize])
    [sampleContainer] (Some sampleImagefs) (Some oddDefaults)
    (Some sampleExecutionConfig).

Definition steamC : Component.t :=
  sampleComponent 3 7 "steam-c" sampleMd5 (JsString "9").

(** Components 1, 2 and 3 with everything loaded: all of [sampleDefaults]
    resolves except the id 99 of the generic list. *)
Definition fullRegistry : ComponentRegistry.t :=
  ComponentRegistry.load
    (addAll (ComponentRegistry.new sampleConfig) [dxvkA; dxvkB; steamC])
    [sampleContainer] (Some sampleImagefs) (Some sampleDefaults)
    (Some sampleExecutionConfig).

(** The same without component 3, so that [steamClient] dangles. *)
Definition partialRegistry : ComponentRegistry.t :=
  ComponentRegistry.load
    (addAll (ComponentRegistry.new sampleConfig) [dxvkA; dxvkB])
    [sampleContainer] (Some sampleImagefs) (Some sampleDefaults)
    (Some sampleExecutionConfig).

(** Container and defaults assigned, the firmware descriptor still [null]. *)
Definition noImagefsRegistry : ComponentRegistry.t :=
  ComponentRegistry.load
    (addAll (ComponentRegistry.new sampleConfig) [dxvkA; dxvkB; steamC])
    [sampleContainer] None (Some sampleDefaults) (Some sampleExecutionConfig).

(** Container and defaults assigned, the execution configuration still
    [null]. *)
Definition noExecutionConfigRegistry : ComponentRegistry.t :=
  ComponentRegistry.load
    (addAll (ComponentRegistry.new sampleConfig) [dxvkA; dxvkB; steamC])
    [sampleContainer] (Some sampleImagefs) (Some sampleDefaults) None.

(** Defaults assigned, but no container with the id they name. *)
Definition noContainerRegistry : ComponentRegistry.t :=
  ComponentRegistry.load
    (addAll (ComponentRegistry.new sampleConfig) [dxvkA; dxvkB; steamC])
    [] (Some sampleImagefs) (Some sampleDefaults) (Some sampleExecutionConfig).

(* ------------------------------------------------------------------ *)
(** ** Vocabulary for the rest of the code *)
(* ------------------------------------------------------------------ *)

(** The components of a list that are the first with their id, given the
    ids already taken, in list order. *)
Fixpoint firstOccurrences (seen : list Z) (cs : list Component.t)
  : list Component.t :=
  match cs with
  | [] => []
  | c :: rest =>
      if existsb (Z.eqb (Component.id c)) seen
      then firstOccurrences seen rest
      else c :: firstOccurrences (seen ++ [Component.id c]) rest
  end.

(** Type ascending, and id descending within a type. *)
Definition typeThenIdOrder (a b : Component.t) : Prop :=
  Component.type a < Component.type b
  \/ (Component.type a = Component.type b /\ Component.id a >= Component.id b).

Definition hasTypeAndId (type id : Z) (c : Component.t) : bool :=
  hasType type c && hasId id c.

(** Type ascending, and the order of [localeCompare] on names within a
    type. *)
Definition typeThenNameOrder (localeCompare : string -> string -> Z)
    (a b : Component.t) : Prop :=
  Component.type a < Component.type b
  \/ (Component.type a = Component.type b
      /\ localeCompare (Component.name a) (Component.name b) <= 0).

(** A comparator is consistent when it orders totally and transitively. *)
Definition consistentComparator {A} (cmp : A -> A -> Z) : Prop :=
  (forall a b, cmp a b > 0 -> cmp b a <= 0)
  /\ (forall a b c, cmp a b <= 0 -> cmp b c <= 0 -> cmp a c <= 0).

(** A stand-in collation for concrete runs: shorter names first. *)
Definition compareLengths (a b : string) : Z :=
  Z.of_nat (String.length a) - Z.of_nat (String.length b).

Definition sumList (l : list Z) : Z := fold_right Z.add 0 l.

(** More sample data. *)
Definition unknownType : Component.t :=
  sampleComponent 30 9 "mystery" sampleMd5 (JsString "1").

Definition dxvkNamesake : Component.t :=
  sampleComponent 40 3 "dxvk-a" sampleMd5 (JsString "2").

Definition negativeId : Component.t :=
  sampleComponent (-4) 2 "drv-neg" sampleMd5 (JsString "3").

Definition cleanDefaults : Defaults.t :=
  {| Defaults.dxvk := 1;
     Defaults.vkd3d := 2;
     Defaults.steamClient := 3;
     Defaults.container := 100;
     Defaults.genericComponentIds := [2; 1];
     Defaults.qualcommComponentIds := [3; 3];
     Defaults.genericContext := sampleContext;
     Defaults.qualcommContext := sampleContext |}.

(** Everything loaded and every reference resolved. *)
Definition validRegistry : ComponentRegistry.t :=
  ComponentRegistry.load
    (addAll (ComponentRegistry.new sampleConfig) [dxvkA; dxvkB; steamC])
    [sampleContainer] (Some sampleImagefs) (Some cleanDefaults)
    (Some sampleExecutionConfig).

Definition otherContainer : Container.t :=
  {| Container.id := 5;
     Container.name := "proton";
     Container.version := "8.0";
     Container.version_code := 8;
     Container.file_name := "proton.tzst";
     Container.file_md5 := sampleMd5;
     Container.file_size := "1";
     Container.download_url := "https://cdn.example/proton.tzst";
     Container.logo := "https://cdn.example/logo.png";
     Container.display_name := "Proton";
     Container.framework := arm64X;
     Container.framework_type := proton;
     Container.is_steam := 1;
     Container.sub_data := None |}.

(** The same, but the only container has another id than the defaults
    name. *)
Definition wrongContainerRegistry : ComponentRegistry.t :=
  ComponentRegistry.load
    (addAll (ComponentRegistry.new sampleConfig) [dxvkA; dxvkB; steamC])
    [otherContainer] (Some sampleImagefs) (Some cleanDefaults)
    (Some sampleExecutionConfig).



Definition sampleCustom (id type : Z) (name : string)
  : CustomComponentDefinition.t :=
  {| CustomComponentDefinition.id := id;
     CustomComponentDefinition.name := name;
     CustomComponentDefinition.type := type;
     CustomComponentDefinition.version := "1.0.0";
     CustomComponentDefinition.version_code := None;
     CustomComponentDefinition.file_name := (name ++ ".tzst")%string;
     CustomComponentDefinition.file_md5 := sampleMd5;
     CustomComponentDefinition.file_size := JsString "5";
     CustomComponentDefinition.display_name := Some EmptyString;
     CustomComponentDefinition.blurb := None |}.

(* ------------------------------------------------------------------ *)
(** ** Facts about the insertion-ordered map *)
(* ------------------------------------------------------------------ *)

Section JsMapFacts.
Context {K V : Type} `{KeyEq K}.
Implicit Types (m : JsMap.t K V) (k : K) (v : V).

Lemma keq_refl k : keq k k = true.
Proof. now apply keq_spec. Qed.

Lemma keq_neq k k' : k <> k' -> keq k k' = false.
Proof.
  intros Hne. destruct (keq k k') eqn:E; [|reflexivity].
  apply keq_spec in E. contradiction.
Qed.

Lemma get_set_same m k v : JsMap.get (JsMap.set m k v) k = Some v.
Proof.
  induction m as [|[k' v'] m IH]; simpl.
  - now rewrite keq_refl.
  - destruct (keq k' k) eqn:E; simpl; rewrite E; auto.
Qed.

Lemma get_set_other m k k' v :
  k <> k' -> JsMap.get (JsMap.set m k v) k' = JsMap.get m k'.
Proof.
  intros Hne. induction m as [|[k0 v0] m IH]; simpl.
  - now rewrite keq_neq.
  - destruct (keq k0 k) eqn:E; simpl.
    + apply keq_spec in E. subst k0. now rewrite keq_neq.
    + now rewrite IH.
Qed.

Lemma set_fresh m k v :
  JsMap.get m k = None -> JsMap.set m k v = m ++ [(k, v)].
Proof.
  induction m as [|[k' v'] m IH]; simpl; [reflexivity|].
  destruct (keq k' k); [discriminate|].
  intros Hg. now rewrite IH.
Qed.

Lemma has_get m k :
  JsMap.has m k = true <-> exists v, JsMap.get m k = Some v.
Proof.
  unfold JsMap.has. destruct (JsMap.get m k).
  - split; eauto.
  - split; [discriminate|]. intros [v Hv]. discriminate.
Qed.

Lemma has_false_get m k : JsMap.has m k = false <-> JsMap.get m k = None.
Proof.
  unfold JsMap.has. destruct (JsMap.get m k); split; congruence.
Qed.

Lemma get_In m k v : JsMap.get m k = Some v -> In (k, v) m.
Proof.
  induction m as [|[k' v'] m IH]; simpl; [discriminate|].
  destruct (keq k' k) eqn:E.
  - intros [= ->]. apply keq_spec in E. subst. now left.
  - intros Hg. right. auto.
Qed.

Lemma get_In_values m k v : JsMap.get m k = Some v -> In v (JsMap.values m).
Proof.
  intros Hg. apply get_In in Hg. unfold JsMap.values.
  change v with (snd (k, v)). now apply in_map.
Qed.

Lemma get_None_keys m k : JsMap.get m k = None -> ~ In k (JsMap.keys m).
Proof.
  induction m as [|[k' v'] m IH]; simpl; [tauto|].
  destruct (keq k' k) eqn:E; [discriminate|].
  intros Hg [->|Hin]; [|now apply IH].
  rewrite keq_refl in E. discriminate.
Qed.

Lemma In_values_set m k v x :
  In x (JsMap.values (JsMap.set m k v)) -> x = v \/ In x (JsMap.values m).
Proof.
  induction m as [|[k' v'] m IH]; simpl.
  - intros [<-|[]]. now left.
  - destruct (keq k' k); simpl.
    + intros [<-|Hin]; auto.
    + intros [<-|Hin]; auto. destruct (IH Hin); auto.
Qed.

Lemma size_length m : JsMap.size m = Z.of_nat (List.length (JsMap.values m)).
Proof. unfold JsMap.size, JsMap.values. now rewrite length_map. Qed.

End JsMapFacts.

(* ------------------------------------------------------------------ *)
(** ** Sorting *)
(* ------------------------------------------------------------------ *)

Section SortFacts.
Context {A : Type} (cmp : A -> A -> Z).

Lemma sortInsert_perm x l : Permutation (x :: l) (sortInsert cmp x l).
Proof.
  induction l as [|y l IH]; simpl; [reflexivity|].
  destruct (cmp x y <=? 0); [reflexivity|].
  rewrite perm_swap. now constructor.
Qed.

Lemma arraySort_perm l : Permutation l (arraySort cmp l).
Proof.
  induction l as [|x l IH]; simpl; [reflexivity|].
  rewrite <- sortInsert_perm. now constructor.
Qed.

Lemma arraySort_length l : List.length (arraySort cmp l) = List.length l.
Proof. symmetry. apply Permutation_length, arraySort_perm. Qed.

End SortFacts.

Section ByIdDescending.

Lemma sortInsert_sorted x l :
  StronglySorted idDescending l ->
  StronglySorted idDescending (sortInsert compareIds x l).
Proof.
  induction 1 as [|y l Hs IH Hall]; simpl.
  - repeat constructor.
  - unfold compareIds at 1. destruct (Z.leb_spec (Component.id y - Component.id x) 0).
    + constructor; [now constructor|].
      constructor; [unfold idDescending; lia|].
      eapply Forall_impl; [|exact Hall].
      unfold idDescending. intros; lia.
    + constructor; [exact IH|].
      eapply Permutation_Forall; [apply sortInsert_perm|].
      constructor; [unfold idDescending; lia|exact Hall].
Qed.

Lemma sortByIdDescending_sorted l :
  StronglySorted idDescending (ComponentRegistry.sortByIdDescending l).
Proof.
  unfold ComponentRegistry.sortByIdDescending.
  induction l as [|x l IH]; simpl; [constructor|].
  now apply (sortInsert_sorted x).
Qed.

Lemma sortInsert_stable k x l :
  filter (hasId k) (sortInsert compareIds x l) = filter (hasId k) (x :: l).
Proof.
  induction l as [|y l IH]; [reflexivity|].
  cbn [sortInsert]. unfold compareIds at 1.
  destruct (Z.leb_spec (Component.id y - Component.id x) 0); [reflexivity|].
  cbn [filter] in *. rewrite IH. unfold hasId.
  destruct (Z.eqb_spec (Component.id y) k), (Z.eqb_spec (Component.id x) k);
    try reflexivity.
  lia.
Qed.

Lemma sortByIdDescending_stable k l :
  filter (hasId k) (ComponentRegistry.sortByIdDescending l) = filter (hasId k) l.
Proof.
  unfold ComponentRegistry.sortByIdDescending, arraySort.
  induction l as [|x l IH]; [reflexivity|].
  cbn [fold_right]. rewrite (sortInsert_stable k x). cbn [filter].
  now rewrite IH.
Qed.

(** Two arrays sorted by id descending that keep, for every id, the same
    elements in the same order, are the same array: the result of a stable
    sort with this comparator does not depend on the algorithm. *)
Lemma stable_sort_unique l1 :
  forall l2,
    StronglySorted idDescending l1 ->
    StronglySorted idDescending l2 ->
    (forall k, filter (hasId k) l1 = filter (hasId k) l2) ->
    l1 = l2.
Proof.
  induction l1 as [|x l1 IH]; intros l2 Hs1 Hs2 Hf.
  - destruct l2 as [|y l2]; [reflexivity|].
    specialize (Hf (Component.id y)). cbn in Hf. unfold hasId in Hf.
    rewrite Z.eqb_refl in Hf. discriminate.
  - destruct l2 as [|y l2].
    + specialize (Hf (Component.id x)). cbn in Hf. unfold hasId in Hf.
      rewrite Z.eqb_refl in Hf. discriminate.
    + inversion Hs1 as [|? ? Hs1' Hall1]; subst.
      inversion Hs2 as [|? ? Hs2' Hall2]; subst.
      assert (Hxy : Component.id x = Component.id y).
      { assert (Hy : In y (x :: l1)).
        { assert (Hin : In y (filter (hasId (Component.id y)) (x :: l1))).
          { rewrite Hf. cbn. unfold hasId. rewrite Z.eqb_refl. now left. }
          apply filter_In in Hin. tauto. }
        assert (Hx : In x (y :: l2)).
        { assert (Hin : In x (filter (hasId (Component.id x)) (y :: l2))).
          { rewrite <- Hf. cbn. unfold hasId. rewrite Z.eqb_refl. now left. }
          apply filter_In in Hin. tauto. }
        rewrite Forall_forall in Hall1, Hall2. unfold idDescending in *.
        destruct Hy as [->|Hy]; [reflexivity|].
        destruct Hx as [->|Hx]; [reflexivity|].
        specialize (Hall1 _ Hy). specialize (Hall2 _ Hx). lia. }
      assert (Hhd := Hf (Component.id x)). cbn in Hhd. unfold hasId in Hhd.
      rewrite Z.eqb_refl in Hhd. rewrite <- Hxy, Z.eqb_refl in Hhd.
      injection Hhd as -> Htl. f_equal.
      apply IH; auto. intros k. specialize (Hf k). cbn in Hf.
      destruct (hasId k y) eqn:E; [|exact Hf].
      now injection Hf.
Qed.

End ByIdDescending.

(* ------------------------------------------------------------------ *)
(** ** addComponent, case by case *)
(* ------------------------------------------------------------------ *)

Import ComponentRegistry.

Lemma addComponent_duplicate r c :
  JsMap.has (components r) (Component.id c) = true ->
  exists existing,
    JsMap.get (components r) (Component.id c) = Some existing
    /\ addComponent r c
       = {| outcome := Normal tt;
            heap := r;
            console := [duplicateWarning c existing] |}.
Proof.
  intros Hhas. destruct (proj1 (has_get _ _) Hhas) as [existing Hget].
  exists existing. split; [exact Hget|].
  unfold addComponent. now rewrite Hhas, Hget.
Qed.

Lemma addComponent_fresh r c :
  JsMap.has (components r) (Component.id c) = false ->
  let rc := rewrite (config r) c in
  let r' := heap (addComponent r c) in
  components r' = components r ++ [(Component.id c, rc)]
  /\ config r' = config r
  /\ containers r' = containers r
  /\ imagefs r' = imagefs r
  /\ defaults r' = defaults r
  /\ executionConfig r' = executionConfig r
  /\ match JsMap.get (componentsByType r) (Component.type c) with
     | Some partition =>
         outcome (addComponent r c) = Normal tt
         /\ componentsByType r'
            = JsMap.set (componentsByType r) (Component.type c) (partition ++ [rc])
         /\ componentsByName r'
            = JsMap.set (componentsByName r) (Component.name c) rc
     | None =>
         outcome (addComponent r c) = Throw TypeError
         /\ componentsByType r' = componentsByType r
         /\ componentsByName r' = componentsByName r
     end.
Proof.
  intros Hhas rc r'. subst rc r'. unfold addComponent. rewrite Hhas.
  apply has_false_get in Hhas.
  destruct (JsMap.get (componentsByType r) (Component.type c));
    cbn [heap outcome components config containers imagefs defaults
         executionConfig componentsByType componentsByName];
    rewrite (set_fresh _ _ _ Hhas); repeat split; reflexivity.
Qed.

Lemma values_app {K V} (m1 m2 : JsMap.t K V) :
  JsMap.values (m1 ++ m2) = JsMap.values m1 ++ JsMap.values m2.
Proof. apply map_app. Qed.

Lemma keys_app {K V} (m1 m2 : JsMap.t K V) :
  JsMap.keys (m1 ++ m2) = JsMap.keys m1 ++ JsMap.keys m2.
Proof. apply map_app. Qed.

Lemma rewrite_rewritten cfg c : rewritten cfg (rewrite cfg c).
Proof. split; reflexivity. Qed.

Lemma new_componentsByType cfg :
  componentsByType (new cfg)
  = [(1, []); (2, []); (3, []); (4, []); (5, []); (6, []); (7, [])].
Proof. reflexivity. Qed.

Lemma invariant_new P cfg : invariant P cfg (new cfg).
Proof.
  constructor; try rewrite new_componentsByType.
  - reflexivity.
  - constructor.
  - reflexivity.
  - constructor.
  - intros type Htype.
    assert (type = 1 \/ type = 2 \/ type = 3 \/ type = 4 \/ type = 5
            \/ type = 6 \/ type = 7) as Hcases by lia.
    repeat (destruct Hcases as [->|Hcases]; [reflexivity|]). now subst.
  - intros type partition. cbn [JsMap.get keq KeyEq_Z].
    repeat (destruct (_ =? type); [intros [= <-]; apply incl_nil_l|]).
    discriminate.
  - discriminate.
Qed.

Lemma invariant_load P cfg r cs im d ec :
  invariant P cfg r -> invariant P cfg (load r cs im d ec).
Proof. intros [? ? ? ? ? ? ?]. constructor; assumption. Qed.

Lemma invariant_add P cfg r c :
  invariant P cfg r -> P c -> invariant P cfg (heap (addComponent r c)).
Proof.
  intros Hinv HP.
  destruct (JsMap.has (components r) (Component.id c)) eqn:Hhas.
  - destruct (addComponent_duplicate r c Hhas) as (existing & _ & ->). exact Hinv.
  - destruct Hinv as [Hcfg Horigin Hkeys Hnodup Hpart HbyType HbyName].
    destruct (addComponent_fresh r c Hhas)
      as (Hcomps & Hconfig & _ & _ & _ & _ & Hrest).
    rewrite Hcfg in *.
    set (r' := heap (addComponent r c)) in *.
    set (rc := rewrite cfg c) in *.
    assert (Hall : getAllComponents r' = getAllComponents r ++ [rc]).
    { unfold getAllComponents. rewrite Hcomps. exact (values_app _ [_]). }
    assert (Hreg : forall type,
               registeredOfType r' type
               = registeredOfType r type
                 ++ (if Component.type c =? type then [rc] else [])).
    { intros type. unfold registeredOfType. rewrite Hall, filter_app. reflexivity. }
    constructor.
    + now rewrite Hconfig.
    + rewrite Hall. apply Forall_app. split; [exact Horigin|].
      constructor; [|constructor]. exists c. now split.
    + rewrite Hcomps, keys_app, Hall, map_app, Hkeys. reflexivity.
    + rewrite Hcomps, keys_app. cbn.
      apply NoDup_rev in Hnodup. rewrite <- (rev_involutive (_ ++ _)).
      apply NoDup_rev. rewrite rev_app_distr. cbn. constructor; [|exact Hnodup].
      rewrite <- in_rev. apply get_None_keys. now apply has_false_get.
    + intros type Htype. rewrite Hreg.
      destruct (JsMap.get (componentsByType r) (Component.type c))
        as [partition|] eqn:Hget; destruct Hrest as (_ & -> & _).
      * destruct (Z.eqb_spec (Component.type c) type) as [Heq|Hne];
          [rewrite Heq in *|].
        -- rewrite get_set_same. rewrite (Hpart _ Htype) in Hget.
           now injection Hget as <-.
        -- rewrite get_set_other by exact Hne. rewrite app_nil_r. now apply Hpart.
      * destruct (Z.eqb_spec (Component.type c) type) as [Heq|Hne];
          [rewrite Heq in *|].
        -- rewrite (Hpart _ Htype) in Hget. discriminate.
        -- rewrite app_nil_r. now apply Hpart.
    + intros type partition. rewrite Hall.
      destruct (JsMap.get (componentsByType r) (Component.type c))
        as [old|] eqn:Hget; destruct Hrest as (_ & -> & _).
      * destruct (Z.eqb_spec (Component.type c) type) as [Heq|Hne];
          [rewrite Heq in *|].
        -- rewrite get_set_same. intros [= <-].
           apply incl_app; [|apply incl_appr, incl_refl].
           apply incl_appl. eapply HbyType; eauto.
        -- rewrite get_set_other by exact Hne. intros Hg.
           apply incl_appl. eapply HbyType; eauto.
      * intros Hg. apply incl_appl. eapply HbyType; eauto.
    + intros name x. rewrite Hall.
      destruct (JsMap.get (componentsByType r) (Component.type c))
        as [old|] eqn:Hget; destruct Hrest as (_ & _ & ->).
      * destruct (String.eqb_spec (Component.name c) name) as [Heq|Hne];
          [rewrite Heq in *|].
        -- rewrite get_set_same. intros [= <-]. apply in_or_app. right. now left.
        -- rewrite get_set_other by exact Hne. intros Hg.
           apply in_or_app. left. eapply HbyName; eauto.
      * intros Hg. apply in_or_app. left. eapply HbyName; eauto.
Qed.

Lemma reachable_invariant P cfg r : reachable P cfg r -> invariant P cfg r.
Proof.
  induction 1 as [|r c _ IH HP|r cs im d ec _ IH].
  - apply invariant_new.
  - now apply invariant_add.
  - now apply invariant_load.
Qed.

Lemma get_app_Some {K V} `{KeyEq K} (m l : JsMap.t K V) k v :
  JsMap.get m k = Some v -> JsMap.get (m ++ l) k = Some v.
Proof.
  induction m as [|[k' v'] m IH]; simpl; [discriminate|].
  destruct (keq k' k); auto.
Qed.

Lemma getById_persists r c id x :
  getById r id = Some x -> getById (heap (addComponent r c)) id = Some x.
Proof.
  intros Hget. destruct (JsMap.has (components r) (Component.id c)) eqn:Hhas.
  - destruct (addComponent_duplicate r c Hhas) as (existing & _ & ->). exact Hget.
  - destruct (addComponent_fresh r c Hhas) as (Hcomps & _).
    unfold getById. rewrite Hcomps. now apply get_app_Some.
Qed.

Lemma getById_addAll r cs id x :
  getById r id = Some x -> getById (addAll r cs) id = Some x.
Proof.
  revert r. induction cs as [|c cs IH]; intros r Hget; [exact Hget|].
  apply IH. now apply getById_persists.
Qed.

Lemma retrievable_stored P cfg r c :
  invariant P cfg r -> retrievable r c -> In c (getAllComponents r).
Proof.
  intros Hinv [[id Hid]|[[name Hname]|[[type Htype]|Hall]]].
  - eapply get_In_values. exact Hid.
  - eapply inv_byName; eauto.
  - unfold getByType in Htype.
    destruct (JsMap.get (componentsByType r) type) as [partition|] eqn:Hget;
      [|destruct Htype].
    eapply inv_byType; eauto.
  - exact Hall.
Qed.

(* ------------------------------------------------------------------ *)
(** ** Registration *)
(* ------------------------------------------------------------------ *)

(** C1.  In every registry state reached by [addComponent] calls, a component
    whose id is not yet present is stored with [download_url] equal to
    [cdnBaseUrl ++ "/" ++ file_name] and [logo] equal to [logoUrl], whatever
    the component supplied for the two fields; and every component that
    [getById], [getByName], [getByType] or [getAllComponents] returns has
    these two values. *)
Theorem registered_components_are_rewritten :
  forall cfg r,
    reachable anyComponent cfg r ->
    (forall c,
        JsMap.has (components r) (Component.id c) = false ->
        exists stored,
          getById (heap (addComponent r c)) (Component.id c) = Some stored
          /\ Component.download_url stored
             = (BuildConfig.cdnBaseUrl cfg ++ "/" ++ Component.file_name c)%string
          /\ Component.logo stored = BuildConfig.logoUrl cfg)
    /\ (forall c, retrievable r c -> rewritten cfg c).
Proof.
  intros cfg r Hreach.
  pose proof (reachable_invariant Hreach) as Hinv. split.
  - intros c Hhas. exists (rewrite cfg c).
    destruct (addComponent_fresh r c Hhas) as (Hcomps & _).
    rewrite (inv_config Hinv) in Hcomps.
    repeat split. unfold getById. rewrite Hcomps.
    rewrite <- (set_fresh _ _ _ (proj1 (has_false_get _ _) Hhas)).
    apply get_set_same.
  - intros c Hc. pose proof (retrievable_stored Hinv Hc) as Hin.
    pose proof (inv_origin Hinv) as Horigin. rewrite Forall_forall in Horigin.
    destruct (Horigin c Hin) as (c0 & _ & ->). apply rewrite_rewritten.
Qed.

Lemma registered_components_are_rewritten_witness :
  (exists stored,
      getById (heap (addComponent (new sampleConfig) dxvkA)) 1 = Some stored
      /\ Component.download_url stored
         = "https://cdn.example/Components/dxvk-a.tzst"
      /\ Component.logo stored = "https://cdn.example/logo.png")
  /\ rewritten sampleConfig (ComponentRegistry.rewrite sampleConfig dxvkA).
Proof.
  destruct (@registered_components_are_rewritten sampleConfig
              (heap (addComponent (new sampleConfig) dxvkA)))
    as [_ Hall].
  { apply reach_add; [apply reach_new|exact I]. }
  destruct (@registered_components_are_rewritten sampleConfig (new sampleConfig))
    as [Hadd _].
  { apply reach_new. }
  split.
  - apply (Hadd dxvkA). reflexivity.
  - apply Hall. left. exists 1. reflexivity.
Defined.

(** C2.  When the id of [c] is already present, [addComponent c] returns
    normally, leaves the registry exactly as it was (so the count, the type
    partitions and the name index are the same) and only prints the conflict
    on the console; the entry under that id stays the one registered first,
    whatever is added afterwards. *)
Theorem duplicate_id_is_discarded :
  forall r c,
    JsMap.has (components r) (Component.id c) = true ->
    (exists first,
        getById r (Component.id c) = Some first
        /\ addComponent r c
           = {| outcome := Normal tt;
                heap := r;
                console := [duplicateWarning c first] |}
        /\ forall more,
            getById (addAll (heap (addComponent r c)) more) (Component.id c)
            = Some first)
    /\ getTotalCount (heap (addComponent r c)) = getTotalCount r
    /\ getAllComponents (heap (addComponent r c)) = getAllComponents r
    /\ (forall type,
           getByType (heap (addComponent r c)) type = getByType r type)
    /\ (forall name,
           getByName (heap (addComponent r c)) name = getByName r name).
Proof.
  intros r c Hhas.
  destruct (addComponent_duplicate r c Hhas) as (first & Hget & Hadd).
  rewrite Hadd. cbn [heap]. split; [|repeat split].
  exists first. repeat split; [exact Hget|].
  intros more. now apply getById_addAll.
Qed.

Lemma duplicate_id_is_discarded_witness :
  let r1 := heap (addComponent (new sampleConfig) dxvkA) in
  outcome (addComponent r1 dxvkAgain) = Normal tt
  /\ heap (addComponent r1 dxvkAgain) = r1
  /\ getById (addAll (heap (addComponent r1 dxvkAgain)) [dxvkB; dxvkAgain]) 1
     = Some (ComponentRegistry.rewrite sampleConfig dxvkA)
  /\ getTotalCount (heap (addComponent r1 dxvkAgain)) = 1.
Proof.
  intros r1.
  destruct (@duplicate_id_is_discarded r1 dxvkAgain eq_refl)
    as ((first & Hget & Hadd & Hmore) & Hcount & _).
  assert (Hfirst : first = ComponentRegistry.rewrite sampleConfig dxvkA).
  { cbv in Hget. injection Hget as <-. reflexivity. }
  split; [|split; [|split]].
  - now rewrite Hadd.
  - now rewrite Hadd.
  - rewrite <- Hfirst. apply (Hmore [dxvkB; dxvkAgain]).
  - rewrite Hcount. reflexivity.
Defined.

(** The counting argument: a list whose elements all have a type in 1..7 is
    as long as its seven per-type sublists together. *)
Lemma length_by_type (l : list Component.t) :
  Forall validType l ->
  Z.of_nat (List.length l)
  = fold_right Z.add 0
      (map (fun type => Z.of_nat (List.length (filter (hasType type) l)))
         (upto 1 7)).
Proof.
  change (upto 1 7) with [1; 2; 3; 4; 5; 6; 7].
  induction 1 as [|c l Hc _ IH]; [reflexivity|].
  unfold hasType in *. cbn [map fold_right filter] in *.
  unfold validType in Hc.
  destruct (Z.eqb_spec (Component.type c) 1);
    destruct (Z.eqb_spec (Component.type c) 2);
    destruct (Z.eqb_spec (Component.type c) 3);
    destruct (Z.eqb_spec (Component.type c) 4);
    destruct (Z.eqb_spec (Component.type c) 5);
    destruct (Z.eqb_spec (Component.type c) 6);
    destruct (Z.eqb_spec (Component.type c) 7);
    cbn [List.length]; lia.
Qed.

Lemma stored_types_valid cfg r :
  invariant validType cfg r -> Forall validType (getAllComponents r).
Proof.
  intros Hinv. eapply Forall_impl; [|exact (inv_origin Hinv)].
  intros c (c0 & Hc0 & ->). exact Hc0.
Qed.

Lemma getCountByType_registered P cfg r type :
  invariant P cfg r -> 1 <= type <= 7 ->
  getCountByType r type = Z.of_nat (List.length (registeredOfType r type)).
Proof.
  intros Hinv Htype. unfold getCountByType, getByType.
  now rewrite (inv_partition Hinv Htype).
Qed.

Lemma counts_agree cfg r :
  invariant validType cfg r ->
  getTotalCount r = sumCountsByType r
  /\ Z.of_nat (List.length (getAllComponents r)) = getTotalCount r.
Proof.
  intros Hinv. split.
  - unfold getTotalCount. rewrite size_length.
    fold (getAllComponents r).
    rewrite (length_by_type (stored_types_valid Hinv)).
    unfold sumCountsByType. f_equal. apply map_ext_in.
    intros type Hin. symmetry. eapply getCountByType_registered; eauto.
    change (upto 1 7) with [1; 2; 3; 4; 5; 6; 7] in Hin. cbn in Hin. lia.
  - unfold getTotalCount. now rewrite size_length.
Qed.

Lemma addComponent_validType_returns P cfg r c :
  invariant P cfg r -> validType c -> outcome (addComponent r c) = Normal tt.
Proof.
  intros Hinv Hc. destruct (JsMap.has (components r) (Component.id c)) eqn:Hhas.
  - destruct (addComponent_duplicate r c Hhas) as (existing & _ & ->). reflexivity.
  - destruct (addComponent_fresh r c Hhas) as (_ & _ & _ & _ & _ & _ & Hrest).
    rewrite (inv_partition Hinv Hc) in Hrest. tauto.
Qed.

(** C10.  In every registry state reached by adding components whose types
    are in 1..7, [getTotalCount()] is the sum of [getCountByType(t)] over
    t = 1..7 and [getAllComponents()] has that many elements; a further
    [addComponent] of such a component returns normally and the equalities
    hold again afterwards, also when the component is a rejected duplicate. *)
Theorem total_count_is_sum_of_type_counts :
  forall cfg r,
    reachable validType cfg r ->
    (getTotalCount r = sumCountsByType r
     /\ Z.of_nat (List.length (getAllComponents r)) = getTotalCount r)
    /\ forall c,
        validType c ->
        let r' := heap (addComponent r c) in
        outcome (addComponent r c) = Normal tt
        /\ getTotalCount r' = sumCountsByType r'
        /\ Z.of_nat (List.length (getAllComponents r')) = getTotalCount r'.
Proof.
  intros cfg r Hreach. pose proof (reachable_invariant Hreach) as Hinv.
  split; [now apply counts_agree with cfg|].
  intros c Hc r'. split.
  - eapply addComponent_validType_returns; eauto.
  - apply counts_agree with cfg. now apply invariant_add.
Qed.

Lemma total_count_is_sum_of_type_counts_witness :
  let r := addAll (new sampleConfig) [dxvkA; badMd5A] in
  (getTotalCount r = 2 /\ sumCountsByType r = 2)
  /\ outcome (addComponent r dxvkAgain) = Normal tt
  /\ getTotalCount (heap (addComponent r dxvkAgain))
     = sumCountsByType (heap (addComponent r dxvkAgain))
  /\ getTotalCount (heap (addComponent r dxvkB))
     = sumCountsByType (heap (addComponent r dxvkB)).
Proof.
  intros r.
  assert (Hreach : reachable validType sampleConfig r).
  { apply reach_add; [apply reach_add; [apply reach_new|]|];
      unfold validType; cbn; lia. }
  destruct (total_count_is_sum_of_type_counts Hreach) as [[Hsum _] Hstep].
  split; [split; [reflexivity|now rewrite <- Hsum]|].
  destruct (Hstep dxvkAgain) as (Hout & Hsum1 & _);
    [unfold validType; cbn; lia|].
  destruct (Hstep dxvkB) as (_ & Hsum2 & _); [unfold validType; cbn; lia|].
  split; [exact Hout|split; assumption].
Defined.

(* ------------------------------------------------------------------ *)
(** ** Sorting by id *)
(* ------------------------------------------------------------------ *)

(** C7.  [sortByIdDescending] returns a permutation of its argument, ordered
    by id descending, and is stable: for every id, the elements carrying
    that id come out in the order they went in.  These properties fix the
    result: any array ordered by id descending that keeps the per-id order
    of the argument is the array returned. *)
Theorem sortByIdDescending_stable_sort :
  forall l,
    Permutation l (sortByIdDescending l)
    /\ StronglySorted idDescending (sortByIdDescending l)
    /\ (forall id,
           filter (hasId id) (sortByIdDescending l) = filter (hasId id) l)
    /\ (forall l',
           StronglySorted idDescending l' ->
           (forall id, filter (hasId id) l' = filter (hasId id) l) ->
           l' = sortByIdDescending l).
Proof.
  intros l. split; [apply arraySort_perm|]. split; [|split].
  - apply sortByIdDescending_sorted.
  - intros id. apply sortByIdDescending_stable.
  - intros l' Hsorted Hstable. apply stable_sort_unique.
    + exact Hsorted.
    + apply sortByIdDescending_sorted.
    + intros id. now rewrite sortByIdDescending_stable.
Qed.

Lemma sortByIdDescending_stable_sort_witness :
  sortByIdDescending [dxvkA; dxvkB; dxvkAgain] = [dxvkB; dxvkA; dxvkAgain].
Proof.
  symmetry.
  apply (proj2 (proj2 (proj2
           (sortByIdDescending_stable_sort [dxvkA; dxvkB; dxvkAgain])))).
  - repeat constructor; unfold idDescending; cbn; lia.
  - intros id. unfold hasId. cbn -[Z.eqb].
    destruct (Z.eqb_spec 1 id), (Z.eqb_spec 2 id); try reflexivity; lia.
Defined.

(* ------------------------------------------------------------------ *)
(** ** Validation *)
(* ------------------------------------------------------------------ *)

Lemma In_pushIf cond msg errors e :
  In e (pushIf cond msg errors) <-> In e errors \/ (cond = true /\ e = msg).
Proof.
  unfold pushIf. destruct cond.
  - rewrite in_app_iff. cbn. intuition.
  - intuition discriminate.
Qed.

Lemma typeof_string v :
  negb (String.eqb (typeof v) "string") = true <-> isString v = false.
Proof. destruct v; cbn; intuition discriminate. Qed.

Lemma negb_truthy s : negb (truthy s) = true <-> s = EmptyString.
Proof. destruct s; cbn; intuition discriminate. Qed.

Lemma negb_true b : negb b = true <-> b = false.
Proof. destruct b; cbn; intuition discriminate. Qed.

Lemma In_validateComponent errors c e :
  In e (validateComponent errors c) <->
  In e errors
  \/ (isString (Component.file_size c) = false /\ e = fileSizeError c)
  \/ (md5RegexTest (Component.file_md5 c) = false /\ e = md5Error c)
  \/ (Component.name c = EmptyString
      /\ e = (componentLabel c ++ ": missing name")%string)
  \/ (Component.file_name c = EmptyString
      /\ e = (componentLabel c ++ ": missing file_name")%string)
  \/ (Component.download_url c = EmptyString
      /\ e = (componentLabel c ++ ": missing download_url")%string).
Proof.
  unfold validateComponent. rewrite !In_pushIf.
  rewrite typeof_string, negb_true, !negb_truthy.
  unfold fileSizeError, md5Error. tauto.
Qed.

Lemma In_fold_validateComponent l : forall errors e,
  In e (fold_left validateComponent l errors) <->
  In e errors \/ exists c, In c l /\ In e (validateComponent [] c).
Proof.
  induction l as [|c l IH]; intros errors e; cbn [fold_left].
  - split; [auto|]. intros [?|(c & [] & _)]. assumption.
  - rewrite IH. split.
    + intros [Hin|(c' & Hin & Hc')].
      * rewrite In_validateComponent in Hin.
        destruct Hin as [Hin|Hrest]; [now left|].
        right. exists c. split; [now left|].
        rewrite In_validateComponent. now right.
      * right. exists c'. split; [now right|assumption].
    + intros [Hin|(c' & [<-|Hin] & Hc')].
      * left. rewrite In_validateComponent. now left.
      * left. rewrite In_validateComponent in *.
        destruct Hc' as [[]|Hrest]. now right.
      * right. exists c'. now split.
Qed.

Lemma In_validateScriptIds r label ids : forall errors e,
  In e (validateScriptIds r label errors ids) <->
  In e errors
  \/ exists id,
       In id ids /\ getById r id = None
       /\ e = (label ++ " script component ID " ++ showNumber id
               ++ " not found")%string.
Proof.
  unfold validateScriptIds.
  induction ids as [|id ids IH]; intros errors e; cbn [fold_left].
  - split; [auto|]. intros [?|(id & [] & _)]. assumption.
  - rewrite IH, In_pushIf, negb_true, has_false_get. unfold getById.
    cbn [In]. split.
    + intros [[?|[Hnone ->]]|(id' & Hin & Hnone & ->)]; eauto 8.
    + intros [?|(id' & [<-|Hin] & Hnone & ->)]; eauto 8.
Qed.

Lemma size_zero {K V} (m : JsMap.t K V) :
  (JsMap.size m =? 0) = true <-> JsMap.values m = [].
Proof.
  unfold JsMap.size, JsMap.values. rewrite Z.eqb_eq.
  destruct m; cbn [List.length map]; split; try reflexivity;
    try discriminate; lia.
Qed.

Lemma isNone_true {A} (o : option A) : isNone o = true <-> o = None.
Proof. destruct o; cbn; intuition discriminate. Qed.

Lemma isEmpty_true {A} (l : list A) : isEmpty l = true <-> l = [].
Proof. destruct l; cbn; intuition discriminate. Qed.

Lemma In_validateDefaults r errors e :
  In e (validateDefaults r errors) <->
  In e errors
  \/ exists d,
       defaults r = Some d
       /\ ((getById r (Defaults.dxvk d) = None
            /\ e = ("Default dxvk ID " ++ showNumber (Defaults.dxvk d)
                    ++ " not found")%string)
           \/ (getById r (Defaults.vkd3d d) = None
               /\ e = ("Default vkd3d ID " ++ showNumber (Defaults.vkd3d d)
                       ++ " not found")%string)
           \/ (getById r (Defaults.steamClient d) = None
               /\ e = ("Default steamClient ID "
                       ++ showNumber (Defaults.steamClient d)
                       ++ " not found")%string)
           \/ (exists id,
                  In id (Defaults.genericComponentIds d)
                  /\ getById r id = None
                  /\ e = ("Generic script component ID " ++ showNumber id
                          ++ " not found")%string)
           \/ (exists id,
                  In id (Defaults.qualcommComponentIds d)
                  /\ getById r id = None
                  /\ e = ("Qualcomm script component ID " ++ showNumber id
                          ++ " not found")%string)).
Proof.
  unfold validateDefaults. destruct (defaults r) as [d|].
  - rewrite !In_validateScriptIds, !In_pushIf, !negb_true, !has_false_get.
    fold (getById r (Defaults.dxvk d)) (getById r (Defaults.vkd3d d))
      (getById r (Defaults.steamClient d)).
    split.
    + intros [[[[[Hin|H]|H]|H]|H]|H]; [now left|right; exists d; tauto..].
    + intros [Hin|(d' & [= <-] & H)]; tauto.
  - split; [now left|]. intros [Hin|(d & Hd & _)]; [assumption|discriminate].
Qed.

(** The report of [validate] holds exactly the violations. *)
Lemma validate_errors_violation r e :
  In e (ValidationResult.errors (validate r)) <-> violation r e.
Proof.
  unfold validate. cbn [ValidationResult.errors].
  rewrite In_validateDefaults, In_fold_validateComponent, !In_pushIf.
  rewrite size_zero, !isNone_true, isEmpty_true.
  fold (getAllComponents r). split.
  - intros [[[[[[[[]|[H ->]]|[H ->]]|[H ->]]|[H ->]]|[H ->]]|(c & Hc & He)]
           |(d & Hd & He)];
      try (constructor; assumption).
    + rewrite In_validateComponent in He.
      destruct He as [[]|[[H ->]|[[H ->]|[[H ->]|[[H ->]|[H ->]]]]]];
        constructor; assumption.
    + destruct He as [[H ->]|[[H ->]|[[H ->]
                     |[(id & Hid & H & ->)|(id & Hid & H & ->)]]]].
      * now apply dangling_dxvk.
      * now apply dangling_vkd3d.
      * now apply dangling_steamClient.
      * now apply dangling_generic with d.
      * now apply dangling_qualcomm with d.
  - intros Hv.
    destruct Hv as [H|H|H|H|H|c Hc H|c Hc H|c Hc H|c Hc H|c Hc H
                    |d Hd H|d Hd H|d Hd H|d id Hd Hid H|d id Hd Hid H];
      try (left; left; auto 8; fail);
      try (left; right; exists c; split; [exact Hc|];
           rewrite In_validateComponent; auto 8; fail);
      try (right; exists d; split; [exact Hd|]; eauto 10; fail).
Qed.

Example showNumber_positive : showNumber 41192642 = "41192642".
Proof. reflexivity. Qed.

Example showNumber_zero : showNumber 0 = "0".
Proof. reflexivity. Qed.

Example showNumber_negative : showNumber (-7) = "-7".
Proof. reflexivity. Qed.

Lemma matchHexExactly_spec n s :
  matchHexExactly n s = true <->
  String.length s = n
  /\ Forall (fun c => hexClassIgnoreCase c = true) (list_ascii_of_string s).
Proof.
  revert s. induction n as [|n IH]; intros [|c s]; cbn;
    try (split; [discriminate|intros [? _]; discriminate]).
  - split; [split; [reflexivity|constructor]|reflexivity].
  - rewrite andb_true_iff, IH. split.
    + intros (Hc & Hlen & Hall). split; [now f_equal|now constructor].
    + intros (Hlen & Hall). inversion Hall; subst. repeat split; auto.
Qed.

Example md5_lowercase : md5RegexTest "3d9d01362622a782a27ae691427b786c" = true.
Proof. reflexivity. Qed.

Example md5_uppercase : md5RegexTest "3D9D01362622A782A27AE691427B786C" = true.
Proof. reflexivity. Qed.

Example md5_too_short : md5RegexTest "3d9d01362622a782a27ae691427b786" = false.
Proof. reflexivity. Qed.

Example md5_too_long : md5RegexTest "3d9d01362622a782a27ae691427b786c0" = false.
Proof. reflexivity. Qed.

Example md5_not_hex : md5RegexTest "3d9d01362622a782a27ae691427b786g" = false.
Proof. reflexivity. Qed.

(** C3.  [validate()] lists the MD5 error of every registered component whose
    [file_md5] fails the test [/^[a-f0-9]{32}$/i], and no check hides
    another: every violation of every check is in the same returned list,
    and [valid] is true only when there is none. *)
Theorem validate_reports_every_md5_violation :
  forall r,
    (forall c,
        In c (getAllComponents r) ->
        md5RegexTest (Component.file_md5 c) = false ->
        In (md5Error c) (ValidationResult.errors (validate r)))
    /\ (forall e, violation r e -> In e (ValidationResult.errors (validate r)))
    /\ (ValidationResult.valid (validate r) = true <-> forall e, ~ violation r e).
Proof.
  intros r. split; [|split].
  - intros c Hc Hmd5. apply validate_errors_violation. now apply bad_md5.
  - intros e. apply validate_errors_violation.
  - change (ValidationResult.valid (validate r))
      with (isEmpty (ValidationResult.errors (validate r))).
    rewrite isEmpty_true. split.
    + intros Hnil e He. apply validate_errors_violation in He.
      rewrite Hnil in He. exact He.
    + intros Hnone.
      destruct (ValidationResult.errors (validate r)) as [|e errors] eqn:E;
        [reflexivity|].
      exfalso. apply (Hnone e), validate_errors_violation.
      rewrite E. now left.
Qed.

Lemma validate_reports_every_md5_violation_witness :
  In "Component 10: invalid MD5 hash"
    (ValidationResult.errors (validate md5Registry))
  /\ In "Component 11: invalid MD5 hash"
       (ValidationResult.errors (validate md5Registry))
  /\ In "Imagefs not loaded" (ValidationResult.errors (validate md5Registry))
  /\ ValidationResult.valid (validate md5Registry) = false.
Proof.
  destruct (validate_reports_every_md5_violation md5Registry)
    as (Hmd5 & Hall & Hvalid).
  split; [|split; [|split]].
  - apply (Hmd5 (ComponentRegistry.rewrite sampleConfig badMd5A));
      [now left|reflexivity].
  - apply (Hmd5 (ComponentRegistry.rewrite sampleConfig badMd5B));
      [right; right; now left|reflexivity].
  - apply Hall. apply no_imagefs. reflexivity.
  - destruct (ValidationResult.valid (validate md5Registry)) eqn:E;
      [|reflexivity].
    exfalso. apply (proj1 Hvalid eq_refl "Imagefs not loaded").
    apply no_imagefs. reflexivity.
Defined.

Lemma append_inj_l (p a b : string) : (p ++ a = p ++ b)%string -> a = b.
Proof.
  induction p as [|c p IH]; cbn; [auto|]. intros [= H]. auto.
Qed.

(** C4, as stated, fails: a registered component whose [file_size] is the
    string ["12a"] passes validation with an empty report. *)
Lemma file_size_digits_not_checked :
  In (ComponentRegistry.rewrite sampleConfig oddSize)
    (getAllComponents oddRegistry)
  /\ Component.file_size (ComponentRegistry.rewrite sampleConfig oddSize)
     = JsString "12a"
  /\ isDigitString (JsString "12a") = false
  /\ validate oddRegistry
     = {| ValidationResult.valid := true; ValidationResult.errors := [] |}.
Proof. repeat split; try reflexivity. now left. Qed.

(** C4, amended.  [validate()] reports ["file_size must be string"] for
    every registered component whose [file_size] is not a string; when it is
    a string, the checks of that component add no such error, whatever the
    characters of the string. *)
Theorem validate_reports_non_string_file_size :
  forall r c,
    In c (getAllComponents r) ->
    (isString (Component.file_size c) = false ->
     In (fileSizeError c) (ValidationResult.errors (validate r)))
    /\ (isString (Component.file_size c) = true ->
        forall errors,
          In (fileSizeError c) (validateComponent errors c) ->
          In (fileSizeError c) errors).
Proof.
  intros r c Hc. split.
  - intros Hsize. apply validate_errors_violation. now apply bad_file_size.
  - intros Hsize errors Hin. apply In_validateComponent in Hin.
    unfold fileSizeError, md5Error in Hin.
    destruct Hin as [Hin|[[H _]|[[_ H]|[[_ H]|[[_ H]|[_ H]]]]]];
      [exact Hin|congruence|apply append_inj_l in H; discriminate..].
Qed.

Lemma validate_reports_non_string_file_size_witness :
  In "Component 21: file_size must be string"
    (ValidationResult.errors (validate numericRegistry))
  /\ ~ In "Component 20: file_size must be string"
         (validateComponent [] (ComponentRegistry.rewrite sampleConfig oddSize)).
Proof.
  split.
  - apply (proj1 (@validate_reports_non_string_file_size numericRegistry
                    (ComponentRegistry.rewrite sampleConfig numericSize)
                    (or_introl eq_refl))).
    reflexivity.
  - intros Hin.
    apply (proj2 (@validate_reports_non_string_file_size oddRegistry
                    (ComponentRegistry.rewrite sampleConfig oddSize)
                    (or_introl eq_refl)) eq_refl []) in Hin.
    exact Hin.
Defined.

(* ------------------------------------------------------------------ *)
(** ** Generators with references: strict and permissive resolution *)
(* ------------------------------------------------------------------ *)

(** C5.  [generateDefaultComponent] throws whenever one of [defaults.dxvk],
    [defaults.vkd3d], [defaults.steamClient] is not a registered id (and
    also when no defaults are loaded at all); when the three resolve it
    returns the code-200 document with the three entries and the empty
    translator placeholder. *)
Theorem generateDefaultComponent_strict :
  forall now r timestamp,
    (defaults r = None ->
     generateDefaultComponent now r timestamp = Throw TypeError)
    /\ (forall d,
           defaults r = Some d ->
           getById r (Defaults.dxvk d) = None
           \/ getById r (Defaults.vkd3d d) = None
           \/ getById r (Defaults.steamClient d) = None ->
           generateDefaultComponent now r timestamp
           = Throw (Error "Default components not found in registry"))
    /\ (forall d dxvk vkd3d steamClient,
           defaults r = Some d ->
           getById r (Defaults.dxvk d) = Some dxvk ->
           getById r (Defaults.vkd3d d) = Some vkd3d ->
           getById r (Defaults.steamClient d) = Some steamClient ->
           generateDefaultComponent now r timestamp
           = Normal
               {| ApiResponseWithTime.code := 200;
                  ApiResponseWithTime.msg := "Success";
                  ApiResponseWithTime.data :=
                    {| DefaultComponentData.container := null;
                       DefaultComponentData.gpu := null;
                       DefaultComponentData.dxvk := toDefaultComponentEntry dxvk;
                       DefaultComponentData.vkd3d :=
                         toDefaultComponentEntry vkd3d;
                       DefaultComponentData.translator := createEmptyComponent;
                       DefaultComponentData.steamClient :=
                         toDefaultComponentEntry steamClient |};
                  ApiResponseWithTime.time :=
                    orElse timestamp (getTimestamp now) |}).
Proof.
  intros now r timestamp. unfold generateDefaultComponent. split; [|split].
  - intros ->. reflexivity.
  - intros d -> Hmissing. cbn [deref bind].
    destruct (getById r (Defaults.dxvk d)) eqn:Hdxvk; [|reflexivity].
    destruct (getById r (Defaults.vkd3d d)) eqn:Hvkd3d; [|reflexivity].
    destruct (getById r (Defaults.steamClient d)) eqn:Hsteam; [|reflexivity].
    destruct Hmissing as [H|[H|H]]; congruence.
  - intros d dxvk vkd3d steamClient -> Hdxvk Hvkd3d Hsteam. cbn [deref bind].
    now rewrite Hdxvk, Hvkd3d, Hsteam.
Qed.

Lemma generateDefaultComponent_strict_witness :
  raises (generateDefaultComponent 0 partialRegistry None)
  /\ raises (generateDefaultComponent 0 (new sampleConfig) None)
  /\ exists doc,
      generateDefaultComponent 1700000000999 fullRegistry None = Normal doc
      /\ ApiResponseWithTime.code doc = 200
      /\ ApiResponseWithTime.time doc = "1700000000"
      /\ DefaultComponentEntry.id
           (DefaultComponentData.steamClient (ApiResponseWithTime.data doc)) = 3
      /\ DefaultComponentData.translator (ApiResponseWithTime.data doc)
         = createEmptyComponent.
Proof.
  split; [|split].
  - eexists.
    apply (proj1 (proj2 (generateDefaultComponent_strict 0 partialRegistry None))
             sampleDefaults eq_refl).
    right. right. reflexivity.
  - eexists.
    apply (proj1 (generateDefaultComponent_strict 0 (new sampleConfig) None)).
    reflexivity.
  - eexists. split.
    + apply (proj2 (proj2 (generateDefaultComponent_strict 1700000000999
                             fullRegistry None))
               sampleDefaults
               (ComponentRegistry.rewrite sampleConfig dxvkA)
               (ComponentRegistry.rewrite sampleConfig dxvkB)
               (ComponentRegistry.rewrite sampleConfig steamC));
        reflexivity.
    + repeat split.
Defined.

Lemma resolveComponents_from r ids : forall acc,
  fold_left
    (fun components id =>
       match getById r id with
       | Some component => components ++ [toExecuteComponent component]
       | None => components
       end)
    ids acc
  = acc ++ map toExecuteComponent (resolved r ids).
Proof.
  induction ids as [|id ids IH]; intros acc; cbn [fold_left resolved].
  - now rewrite app_nil_r.
  - rewrite IH. destruct (getById r id); [|reflexivity].
    cbn [map]. now rewrite <- app_assoc.
Qed.

Lemma resolveComponents_resolved r ids :
  resolveComponents r ids = map toExecuteComponent (resolved r ids).
Proof. unfold resolveComponents. now rewrite resolveComponents_from. Qed.

Lemma In_resolved r ids c :
  In c (resolved r ids) <-> exists id, In id ids /\ getById r id = Some c.
Proof.
  induction ids as [|id ids IH]; cbn [resolved In].
  - split; [intros []|intros (_ & [] & _)].
  - destruct (getById r id) as [x|] eqn:Hx; cbn [In]; rewrite ?IH; split.
    + intros [<-|(id' & Hin & Hc)]; eauto.
    + intros (id' & [<-|Hin] & Hc); [left; congruence|eauto].
    + intros (id' & Hin & Hc); eauto.
    + intros (id' & [<-|Hin] & Hc); [congruence|eauto].
Qed.

Lemma find_container cs id :
  (exists c, In c cs /\ Container.id c = id) ->
  exists c, find (fun c => Container.id c =? id) cs = Some c.
Proof.
  intros (c & Hin & Hid).
  destruct (find (fun c => Container.id c =? id) cs) as [c'|] eqn:Hfind;
    [eauto|].
  pose proof (find_none _ _ Hfind c Hin) as Hne. cbn in Hne.
  rewrite Hid, Z.eqb_refl in Hne. discriminate.
Qed.

Lemma find_no_container cs id :
  (forall c, In c cs -> Container.id c <> id) ->
  find (fun c => Container.id c =? id) cs = None.
Proof.
  intros Hnone.
  destruct (find (fun c => Container.id c =? id) cs) as [c|] eqn:Hfind;
    [|reflexivity].
  apply find_some in Hfind. destruct Hfind as [Hin Hid].
  apply Z.eqb_eq in Hid. now apply Hnone in Hin.
Qed.

(** C6, as stated, fails: with the container present and the defaults
    loaded, [generateExecuteScript("generic")] still throws when the
    firmware descriptor was never assigned, and likewise when the execution
    configuration was never assigned. *)
Lemma generateExecuteScript_throws_without_imagefs :
  (defaults noImagefsRegistry = Some sampleDefaults
   /\ In sampleContainer (containers noImagefsRegistry)
   /\ Container.id sampleContainer = Defaults.container sampleDefaults
   /\ generateExecuteScript 0 noImagefsRegistry generic None = Throw TypeError)
  /\ (defaults noExecutionConfigRegistry = Some sampleDefaults
      /\ In sampleContainer (containers noExecutionConfigRegistry)
      /\ Container.id sampleContainer = Defaults.container sampleDefaults
      /\ generateExecuteScript 0 noExecutionConfigRegistry generic None
         = Throw TypeError).
Proof. repeat split; now left. Qed.

(** C6, amended.  With defaults, execution configuration and firmware
    descriptor loaded and a container whose id is [defaults.container],
    [generateExecuteScript("generic")] returns a code-200 document whose
    [component] list holds, in the order of [genericComponentIds], the
    entries of the ids that resolve and nothing for the others, while
    [component_ids] is the configured list unchanged; without such a
    container it throws. *)
Theorem generateExecuteScript_generic_permissive :
  forall now r timestamp d,
    defaults r = Some d ->
    (forall ec im,
        executionConfig r = Some ec ->
        imagefs r = Some im ->
        (exists c, In c (containers r) /\ Container.id c = Defaults.container d) ->
        exists doc,
          generateExecuteScript now r generic timestamp = Normal doc
          /\ ApiResponseWithTime.code doc = 200
          /\ ExecuteScriptData.component (ApiResponseWithTime.data doc)
             = map toExecuteComponent
                 (resolved r (Defaults.genericComponentIds d))
          /\ ExecuteScriptData.component_ids (ApiResponseWithTime.data doc)
             = Defaults.genericComponentIds d)
    /\ ((forall c, In c (containers r) ->
                   Container.id c <> Defaults.container d) ->
        generateExecuteScript now r generic timestamp
        = Throw
            (Error
               ("Container " ++ showNumber (Defaults.container d)
                ++ " not found")%string)).
Proof.
  intros now r timestamp d Hd. unfold generateExecuteScript.
  rewrite Hd. cbn [deref bind]. split.
  - intros ec im -> -> Hcontainer.
    destruct (find_container _ Hcontainer) as [c ->]. cbn [deref bind].
    eexists. split; [reflexivity|].
    cbn [ApiResponseWithTime.code ApiResponseWithTime.data
         ExecuteScriptData.component ExecuteScriptData.component_ids].
    rewrite resolveComponents_resolved. repeat split.
  - intros Hnone. rewrite (find_no_container _ Hnone). reflexivity.
Qed.

Lemma generateExecuteScript_generic_permissive_witness :
  (exists doc,
      generateExecuteScript 0 fullRegistry generic (Some "1700000000")
      = Normal doc
      /\ map ExecuteComponent.id
           (ExecuteScriptData.component (ApiResponseWithTime.data doc))
         = [2; 1]
      /\ ExecuteScriptData.component_ids (ApiResponseWithTime.data doc)
         = [2; 99; 1])
  /\ generateExecuteScript 0 noContainerRegistry generic None
     = Throw (Error "Container 100 not found").
Proof.
  destruct (@generateExecuteScript_generic_permissive 0 fullRegistry
              (Some "1700000000") sampleDefaults eq_refl)
    as [Hreturns _].
  destruct (@generateExecuteScript_generic_permissive 0 noContainerRegistry
              None sampleDefaults eq_refl)
    as [_ Hthrows].
  split.
  - destruct (Hreturns sampleExecutionConfig sampleImagefs eq_refl eq_refl)
      as (doc & Hdoc & _ & Hcomponent & Hids).
    { exists sampleContainer. split; [now left|reflexivity]. }
    exists doc. split; [exact Hdoc|]. split.
    + rewrite Hcomponent. reflexivity.
    + rewrite Hids. reflexivity.
  - apply Hthrows. intros c [].
Defined.

(* ------------------------------------------------------------------ *)
(** ** Manifest and index *)
(* ------------------------------------------------------------------ *)

Lemma addComponents_reachable P cfg cs : forall r,
  reachable P cfg r -> Forall P cs ->
  reachable P cfg (heap (addComponents r cs)).
Proof.
  induction cs as [|c cs IH]; intros r Hreach Hall; [exact Hreach|].
  inversion Hall as [|? ? Hc Hcs]; subst. cbn [addComponents].
  pose proof (reach_add c Hreach Hc) as Hstep.
  destruct (outcome (addComponent r c)); [|exact Hstep].
  cbn [heap]. now apply IH.
Qed.

Lemma NoDup_map_filter {A B} (f : A -> B) (p : A -> bool) l :
  NoDup (map f l) -> NoDup (map f (filter p l)).
Proof.
  induction l as [|x l IH]; cbn [map filter]; [auto|].
  intros Hnd. inversion Hnd as [|? ? Hnotin Hnd']; subst.
  destruct (p x); [|auto]. cbn [map]. constructor; [|auto].
  intros Hin. apply Hnotin. apply in_map_iff in Hin.
  destruct Hin as (y & Hy & Hin). apply filter_In in Hin.
  apply in_map_iff. exists y. tauto.
Qed.

Lemma strictly_descending l :
  StronglySorted idDescending l ->
  NoDup (map Component.id l) ->
  StronglySorted (fun a b => Component.id a > Component.id b) l.
Proof.
  induction 1 as [|x l Hs IH Hall]; cbn [map]; intros Hnd; constructor.
  - apply IH. now inversion Hnd.
  - inversion Hnd as [|? ? Hnotin _]; subst.
    rewrite Forall_forall in *. intros y Hy.
    specialize (Hall y Hy). unfold idDescending in Hall.
    assert (Component.id x <> Component.id y).
    { intros Heq. apply Hnotin. rewrite Heq. now apply in_map. }
    lia.
Qed.

Lemma StronglySorted_map {A B} (f : A -> B) (R : B -> B -> Prop) l :
  StronglySorted (fun a b => R (f a) (f b)) l -> StronglySorted R (map f l).
Proof.
  induction 1 as [|x l Hs IH Hall]; cbn [map]; constructor; [exact IH|].
  rewrite Forall_forall in *. intros y Hy. apply in_map_iff in Hy.
  destruct Hy as (z & <- & Hz). auto.
Qed.

Lemma registered_ids_unique P cfg r type :
  invariant P cfg r -> NoDup (map Component.id (registeredOfType r type)).
Proof.
  intros Hinv. apply NoDup_map_filter.
  rewrite <- (inv_keys Hinv). exact (inv_nodup Hinv).
Qed.

(** C8.  For a reachable registry and a type in 1..7, [generateManifest]
    returns a document whose components are exactly the registered components
    of that type, in strictly descending id order; and registering an id-1
    and then an id-2 component of type 3 gives the manifest order 2, 1. *)
Theorem generateManifest_by_id_descending :
  (forall cfg r type,
      reachable anyComponent cfg r ->
      1 <= type <= 7 ->
      exists doc,
        generateManifest r type = Normal doc
        /\ Permutation
             (map toManifestComponent (registeredOfType r type))
             (ManifestData.components (ApiResponse.data doc))
        /\ StronglySorted
             (fun a b => ManifestComponent.id a > ManifestComponent.id b)
             (ManifestData.components (ApiResponse.data doc)))
  /\ (forall cfg c1 c2,
         Component.id c1 = 1 -> Component.type c1 = 3 ->
         Component.id c2 = 2 -> Component.type c2 = 3 ->
         exists doc,
           generateManifest (heap (addComponents (new cfg) [c1; c2])) 3
           = Normal doc
           /\ map ManifestComponent.id
                (ManifestData.components (ApiResponse.data doc))
              = [2; 1]).
Proof.
  assert (Hshape : forall P cfg r type,
             invariant P cfg r -> 1 <= type <= 7 ->
             exists doc,
               generateManifest r type = Normal doc
               /\ ManifestData.components (ApiResponse.data doc)
                  = map toManifestComponent
                      (sortByIdDescending (registeredOfType r type))).
  { intros P cfg r type Hinv Htype. unfold generateManifest, getByType.
    rewrite (inv_partition Hinv Htype).
    destruct (COMPONENT_TYPE_META type) as [meta|] eqn:Hmeta.
    - eexists. split; reflexivity.
    - exfalso.
      assert (type = 1 \/ type = 2 \/ type = 3 \/ type = 4 \/ type = 5
              \/ type = 6 \/ type = 7) as Hcases by lia.
      repeat (destruct Hcases as [->|Hcases]; [discriminate|]).
      subst. discriminate. }
  split.
  - intros cfg r type Hreach Htype.
    pose proof (reachable_invariant Hreach) as Hinv.
    destruct (Hshape _ _ _ _ Hinv Htype) as (doc & Hdoc & Hcomponents).
    exists doc. split; [exact Hdoc|]. rewrite Hcomponents. split.
    + apply Permutation_map, arraySort_perm.
    + apply StronglySorted_map.
      change (StronglySorted
                (fun a b => Component.id a > Component.id b)
                (sortByIdDescending (registeredOfType r type))).
      apply strictly_descending; [apply sortByIdDescending_sorted|].
      eapply Permutation_NoDup;
        [apply Permutation_map, arraySort_perm|].
      eapply registered_ids_unique; eauto.
  - intros cfg c1 c2 Hid1 Htype1 Hid2 Htype2.
    assert (Hreach : reachable anyComponent cfg
                       (heap (addComponents (new cfg) [c1; c2]))).
    { apply addComponents_reachable; [apply reach_new|].
      repeat constructor. }
    destruct (Hshape _ _ _ 3 (reachable_invariant Hreach))
      as (doc & Hdoc & Hcomponents); [lia|].
    exists doc. split; [exact Hdoc|]. rewrite Hcomponents.
    destruct c1, c2. cbn in Hid1, Htype1, Hid2, Htype2. subst.
    reflexivity.
Qed.

Lemma generateManifest_by_id_descending_witness :
  exists doc,
    generateManifest (heap (addComponents (new sampleConfig) [dxvkA; dxvkB])) 3
    = Normal doc
    /\ map ManifestComponent.id
         (ManifestData.components (ApiResponse.data doc))
       = [2; 1]
    /\ StronglySorted
         (fun a b => ManifestComponent.id a > ManifestComponent.id b)
         (ManifestData.components (ApiResponse.data doc)).
Proof.
  destruct generateManifest_by_id_descending as [Hgeneral Hexample].
  destruct (Hexample sampleConfig dxvkA dxvkB eq_refl eq_refl eq_refl eq_refl)
    as (doc & Hdoc & Hids).
  destruct (Hgeneral sampleConfig
              (heap (addComponents (new sampleConfig) [dxvkA; dxvkB])) 3)
    as (doc' & Hdoc' & _ & Hsorted).
  { apply addComponents_reachable; [apply reach_new|repeat constructor]. }
  { lia. }
  exists doc. split; [exact Hdoc|]. split; [exact Hids|].
  rewrite Hdoc in Hdoc'. injection Hdoc' as <-. exact Hsorted.
Defined.

Lemma generateIndex_categories r :
  exists doc,
    generateIndex r = Normal doc
    /\ map (fun cat => (IndexCategory.type cat, IndexCategory.count cat))
         (IndexData.categories (ApiResponse.data doc))
       = map (fun type => (type, getCountByType r type)) [1; 2; 3; 4; 5; 6; 7]
    /\ IndexData.total_components (ApiResponse.data doc) = getTotalCount r.
Proof. eexists. split; [reflexivity|]. split; reflexivity. Qed.

(** C9.  For a reachable registry, [generateIndex] returns seven categories,
    of the types 1 to 7 in this order, each with the number of registered
    components of its type as [count], and the number of registered
    components as [total_components]; after registering components of types
    3, 3, 1 with ids 5, 9, 2 the first category is type 1 with count 1. *)
Theorem generateIndex_counts_per_type :
  (forall cfg r,
      reachable anyComponent cfg r ->
      exists doc,
        generateIndex r = Normal doc
        /\ List.length (IndexData.categories (ApiResponse.data doc)) = 7%nat
        /\ map IndexCategory.type (IndexData.categories (ApiResponse.data doc))
           = [1; 2; 3; 4; 5; 6; 7]
        /\ (forall cat,
               In cat (IndexData.categories (ApiResponse.data doc)) ->
               IndexCategory.count cat
               = Z.of_nat
                   (List.length
                      (registeredOfType r (IndexCategory.type cat))))
        /\ IndexData.total_components (ApiResponse.data doc)
           = Z.of_nat (List.length (getAllComponents r)))
  /\ (forall cfg c1 c2 c3,
         Component.type c1 = 3 -> Component.id c1 = 5 ->
         Component.type c2 = 3 -> Component.id c2 = 9 ->
         Component.type c3 = 1 -> Component.id c3 = 2 ->
         exists doc first rest,
           generateIndex (heap (addComponents (new cfg) [c1; c2; c3]))
           = Normal doc
           /\ IndexData.categories (ApiResponse.data doc) = first :: rest
           /\ IndexCategory.type first = 1
           /\ IndexCategory.count first = 1).
Proof.
  split.
  - intros cfg r Hreach. pose proof (reachable_invariant Hreach) as Hinv.
    destruct (generateIndex_categories r) as (doc & Hdoc & Hcats & Htotal).
    exists doc. split; [exact Hdoc|]. split; [|split; [|split]].
    + apply (f_equal (@List.length _)) in Hcats.
      now rewrite !length_map in Hcats.
    + apply (f_equal (map fst)) in Hcats. rewrite !map_map in Hcats.
      exact Hcats.
    + intros cat Hcat.
      apply (in_map (fun cat => (IndexCategory.type cat, IndexCategory.count cat)))
        in Hcat.
      rewrite Hcats in Hcat. apply in_map_iff in Hcat.
      destruct Hcat as (type & [= <- <-] & Htype).
      eapply getCountByType_registered; [exact Hinv|]. cbn in Htype. lia.
    + rewrite Htotal. unfold getTotalCount. apply size_length.
  - intros cfg c1 c2 c3 Htype1 Hid1 Htype2 Hid2 Htype3 Hid3.
    destruct c1, c2, c3, cfg.
    cbn in Htype1, Hid1, Htype2, Hid2, Htype3, Hid3. subst.
    do 3 eexists. split; [reflexivity|]. repeat split.
Qed.

Lemma generateIndex_counts_per_type_witness :
  exists doc,
    generateIndex (heap (addComponents (new sampleConfig) [dxvkA; dxvkB; steamC]))
    = Normal doc
    /\ map (fun cat => (IndexCategory.type cat, IndexCategory.count cat))
         (IndexData.categories (ApiResponse.data doc))
       = [(1, 0); (2, 0); (3, 2); (4, 0); (5, 0); (6, 0); (7, 1)]
    /\ IndexData.total_components (ApiResponse.data doc) = 3.
Proof.
  destruct generateIndex_counts_per_type as [Hgeneral _].
  destruct (Hgeneral sampleConfig
              (heap (addComponents (new sampleConfig) [dxvkA; dxvkB; steamC])))
    as (doc & Hdoc & _ & _ & _ & Htotal).
  { apply addComponents_reachable; [apply reach_new|repeat constructor]. }
  exists doc. split; [exact Hdoc|].
  cbv in Hdoc. injection Hdoc as <-. split; reflexivity.
Defined.

(* ------------------------------------------------------------------ *)
(** ** More on the registry indexes *)
(* ------------------------------------------------------------------ *)

Lemma keys_set_present {K V} `{KeyEq K} (m : JsMap.t K V) k v :
  JsMap.has m k = true -> JsMap.keys (JsMap.set m k v) = JsMap.keys m.
Proof.
  unfold JsMap.has.
  induction m as [|[k' v'] m IH]; cbn [JsMap.get JsMap.set]; [discriminate|].
  destruct (keq k' k); [reflexivity|].
  intros Hhas. cbn [JsMap.keys map fst] in *. f_equal. exact (IH Hhas).
Qed.

Lemma get_outside_keys {K V} `{KeyEq K} (m : JsMap.t K V) k :
  ~ In k (JsMap.keys m) -> JsMap.get m k = None.
Proof.
  induction m as [|[k' v'] m IH]; cbn [JsMap.get JsMap.keys map fst In];
    [reflexivity|].
  intros Hnotin. destruct (keq k' k) eqn:E.
  - apply keq_spec in E. tauto.
  - apply IH. tauto.
Qed.

Lemma In_get_unique {K V} `{KeyEq K} (m : JsMap.t K V) k v :
  NoDup (JsMap.keys m) -> In (k, v) m -> JsMap.get m k = Some v.
Proof.
  induction m as [|[k' v'] m IH]; cbn [JsMap.get JsMap.keys map fst In];
    [tauto|].
  intros Hnd [[= -> ->]|Hin].
  - now rewrite keq_refl.
  - inversion Hnd as [|? ? Hnotin Hnd']; subst.
    destruct (keq k' k) eqn:E; [|now apply IH].
    apply keq_spec in E. subst k'. exfalso. apply Hnotin.
    change k with (fst (k, v)). now apply in_map.
Qed.

Lemma keyed_by_id (m : JsMap.t Z Component.t) :
  JsMap.keys m = map Component.id (JsMap.values m) ->
  forall k v, In (k, v) m <-> In v (JsMap.values m) /\ In (k, v) m /\ Component.id v = k.
Proof.
  unfold JsMap.keys, JsMap.values. rewrite map_map.
  induction m as [|[k' v'] m IH]; cbn [map fst snd In]; [tauto|].
  intros [= Hk Hrest] k v. specialize (IH Hrest k v). split.
  - intros [[= <- <-]|Hin]; [auto|]. apply IH in Hin. tauto.
  - tauto.
Qed.

Lemma stored_pair (m : JsMap.t Z Component.t) v :
  JsMap.keys m = map Component.id (JsMap.values m) ->
  In v (JsMap.values m) -> In (Component.id v, v) m.
Proof.
  unfold JsMap.keys, JsMap.values. rewrite map_map.
  induction m as [|[k' v'] m IH]; cbn [map fst snd In]; [tauto|].
  intros [= Hk Hrest] [<-|Hin]; [left; now rewrite Hk|right; auto].
Qed.

Lemma reachable_type_partitions P cfg r :
  reachable P cfg r ->
  JsMap.keys (componentsByType r) = [1; 2; 3; 4; 5; 6; 7].
Proof.
  induction 1 as [|r c Hreach IH HP|r cs im d ec _ IH]; [reflexivity| |exact IH].
  destruct (JsMap.has (components r) (Component.id c)) eqn:Hhas.
  - destruct (addComponent_duplicate r c Hhas) as (existing & _ & ->). exact IH.
  - destruct (addComponent_fresh r c Hhas) as (_ & _ & _ & _ & _ & _ & Hrest).
    destruct (JsMap.get (componentsByType r) (Component.type c)) eqn:Hget;
      destruct Hrest as (_ & -> & _); [|exact IH].
    rewrite keys_set_present; [exact IH|].
    apply has_get. eauto.
Qed.

Lemma no_partition_outside P cfg r type :
  reachable P cfg r -> ~ 1 <= type <= 7 ->
  JsMap.get (componentsByType r) type = None.
Proof.
  intros Hreach Htype. apply get_outside_keys.
  rewrite (reachable_type_partitions Hreach). cbn. lia.
Qed.

Lemma getById_carries_id P cfg r id c :
  invariant P cfg r -> getById r id = Some c -> Component.id c = id.
Proof.
  intros Hinv Hget. apply get_In in Hget.
  apply (keyed_by_id _ (inv_keys Hinv)) in Hget. tauto.
Qed.

(** [getById] is the inverse of registration: in a reachable registry it
    returns [c] for [id] exactly when [c] is stored and carries that id, and
    at most one stored component carries a given id. *)
Theorem getById_iff_stored :
  forall cfg r,
    reachable anyComponent cfg r ->
    (forall id c,
        getById r id = Some c <->
        In c (getAllComponents r) /\ Component.id c = id)
    /\ NoDup (map Component.id (getAllComponents r)).
Proof.
  intros cfg r Hreach. pose proof (reachable_invariant Hreach) as Hinv.
  split; [|rewrite <- (inv_keys Hinv); exact (inv_nodup Hinv)].
  intros id c. split.
  - intros Hget. split; [|now apply getById_carries_id with anyComponent cfg r].
    eapply get_In_values. exact Hget.
  - intros [Hin <-]. apply In_get_unique; [exact (inv_nodup Hinv)|].
    apply stored_pair; [exact (inv_keys Hinv)|exact Hin].
Qed.

Lemma getById_iff_stored_witness :
  getById fullRegistry 2 = Some (ComponentRegistry.rewrite sampleConfig dxvkB)
  /\ getById fullRegistry 99 = None.
Proof.
  assert (Hreach : reachable anyComponent sampleConfig fullRegistry).
  { apply reach_load. repeat (apply reach_add; [|exact I]). apply reach_new. }
  destruct (getById_iff_stored Hreach) as [Hiff _]. split.
  - apply Hiff. split; [right; now left|reflexivity].
  - destruct (getById fullRegistry 99) as [c|] eqn:Hget; [|reflexivity].
    apply Hiff in Hget. destruct Hget as [Hin Hid]. cbn in Hin.
    destruct Hin as [<-|[<-|[<-|[]]]]; discriminate.
Defined.

(** The name index is overwritten where the id index is not: after a
    component with a fresh id and a type in 1..7 is added, [getByName] of
    its name returns it, even if another component held that name, and
    every other name is unaffected. *)
Theorem getByName_last_registration_wins :
  forall cfg r c,
    reachable anyComponent cfg r ->
    JsMap.has (components r) (Component.id c) = false ->
    validType c ->
    let r' := heap (addComponent r c) in
    getByName r' (Component.name c) = Some (ComponentRegistry.rewrite cfg c)
    /\ (forall name,
           name <> Component.name c -> getByName r' name = getByName r name)
    /\ (forall id, getById r id <> None -> getById r' id = getById r id).
Proof.
  intros cfg r c Hreach Hhas Htype r'.
  pose proof (reachable_invariant Hreach) as Hinv.
  destruct (addComponent_fresh r c Hhas) as (_ & _ & _ & _ & _ & _ & Hrest).
  rewrite (inv_partition Hinv Htype), (inv_config Hinv) in Hrest.
  destruct Hrest as (_ & _ & Hname). fold r' in Hname.
  unfold getByName. rewrite Hname. split; [apply get_set_same|]. split.
  - intros name Hne. apply get_set_other. congruence.
  - intros id Hsome. destruct (getById r id) as [x|] eqn:Hx; [|congruence].
    now apply getById_persists.
Qed.

Lemma getByName_last_registration_wins_witness :
  let r := addAll (new sampleConfig) [dxvkA; dxvkB] in
  getByName r "dxvk-a" = Some (ComponentRegistry.rewrite sampleConfig dxvkA)
  /\ getByName (heap (addComponent r dxvkNamesake)) "dxvk-a"
     = Some (ComponentRegistry.rewrite sampleConfig dxvkNamesake)
  /\ getById (heap (addComponent r dxvkNamesake)) 1
     = Some (ComponentRegistry.rewrite sampleConfig dxvkA).
Proof.
  intros r.
  assert (Hreach : reachable anyComponent sampleConfig r).
  { repeat (apply reach_add; [|exact I]). apply reach_new. }
  destruct (@getByName_last_registration_wins sampleConfig r dxvkNamesake
              Hreach eq_refl)
    as (Hname & _ & Hids).
  { unfold validType. cbn. lia. }
  split; [reflexivity|]. split; [exact Hname|].
  rewrite Hids; [reflexivity|discriminate].
Defined.

Lemma unknown_type_throws cfg r c :
  reachable anyComponent cfg r ->
  JsMap.has (components r) (Component.id c) = false ->
  ~ validType c ->
  outcome (addComponent r c) = Throw TypeError
  /\ components (heap (addComponent r c))
     = components r ++ [(Component.id c, ComponentRegistry.rewrite cfg c)]
  /\ componentsByType (heap (addComponent r c)) = componentsByType r
  /\ componentsByName (heap (addComponent r c)) = componentsByName r.
Proof.
  intros Hreach Hhas Htype.
  destruct (addComponent_fresh r c Hhas) as (Hcomps & _ & _ & _ & _ & _ & Hrest).
  rewrite (no_partition_outside Hreach Htype) in Hrest.
  rewrite (inv_config (reachable_invariant Hreach)) in Hcomps. tauto.
Qed.

(** A component whose type has no partition makes [addComponent] throw, but
    only after the id index was written: the component stays retrievable by
    id and counted in the total, while no type partition and no name entry
    holds it, so the total exceeds the sum of the type counts from then on. *)
Theorem addComponent_unknown_type_half_registers :
  forall cfg r c,
    reachable anyComponent cfg r ->
    JsMap.has (components r) (Component.id c) = false ->
    ~ validType c ->
    let r' := heap (addComponent r c) in
    outcome (addComponent r c) = Throw TypeError
    /\ getById r' (Component.id c) = Some (ComponentRegistry.rewrite cfg c)
    /\ getTotalCount r' = getTotalCount r + 1
    /\ sumCountsByType r' = sumCountsByType r
    /\ (forall type, getByType r' type = getByType r type)
    /\ (forall name, getByName r' name = getByName r name).
Proof.
  intros cfg r c Hreach Hhas Htype r'.
  destruct (unknown_type_throws Hreach Hhas Htype)
    as (Hout & Hcomps & HbyType & HbyName).
  fold r' in Hcomps, HbyType, HbyName.
  split; [exact Hout|]. split; [|split; [|split; [|split]]].
  - unfold getById. rewrite Hcomps.
    rewrite <- (set_fresh _ _ _ (proj1 (has_false_get _ _) Hhas)).
    apply get_set_same.
  - unfold getTotalCount, JsMap.size. rewrite Hcomps, length_app. cbn. lia.
  - unfold sumCountsByType, getCountByType, getByType. now rewrite HbyType.
  - intros type. unfold getByType. now rewrite HbyType.
  - intros name. unfold getByName. now rewrite HbyName.
Qed.

Lemma addComponent_unknown_type_half_registers_witness :
  let r := addAll (new sampleConfig) [dxvkA] in
  outcome (addComponent r unknownType) = Throw TypeError
  /\ getTotalCount (heap (addComponent r unknownType)) = 2
  /\ sumCountsByType (heap (addComponent r unknownType)) = 1
  /\ getByName (heap (addComponent r unknownType)) "mystery" = None.
Proof.
  intros r.
  assert (Hreach : reachable anyComponent sampleConfig r).
  { repeat (apply reach_add; [|exact I]). apply reach_new. }
  destruct (@addComponent_unknown_type_half_registers sampleConfig r unknownType
              Hreach eq_refl)
    as (Hout & _ & Htotal & Hsum & _ & Hname).
  { unfold validType. cbn. lia. }
  split; [exact Hout|]. split; [rewrite Htotal; reflexivity|].
  split; [rewrite Hsum; reflexivity|]. rewrite Hname. reflexivity.
Defined.

Lemma has_existsb (m : JsMap.t Z Component.t) k :
  JsMap.has m k = existsb (Z.eqb k) (JsMap.keys m).
Proof.
  unfold JsMap.has.
  induction m as [|[k' v'] m IH]; cbn [JsMap.get JsMap.keys map fst existsb];
    [reflexivity|].
  cbn [keq KeyEq_Z]. rewrite (Z.eqb_sym k k').
  destruct (k' =? k); [reflexivity|]. exact IH.
Qed.

Lemma addAll_stored cfg cs : forall r,
  config r = cfg ->
  getAllComponents (addAll r cs)
  = getAllComponents r
    ++ map (ComponentRegistry.rewrite cfg)
         (firstOccurrences (JsMap.keys (components r)) cs).
Proof.
  induction cs as [|c cs IH]; intros r Hcfg; cbn [addAll fold_left firstOccurrences].
  - cbn. now rewrite app_nil_r.
  - fold (addAll (heap (addComponent r c)) cs).
    rewrite <- has_existsb.
    destruct (JsMap.has (components r) (Component.id c)) eqn:Hhas.
    + destruct (addComponent_duplicate r c Hhas) as (existing & _ & ->).
      cbn [heap]. now apply IH.
    + destruct (addComponent_fresh r c Hhas) as (Hcomps & Hconfig & _).
      rewrite IH by congruence. unfold getAllComponents at 1.
      rewrite Hcomps, values_app, keys_app, Hcfg. cbn [map].
      rewrite <- app_assoc. reflexivity.
Qed.

Lemma addComponents_validType cfg cs : forall r,
  reachable anyComponent cfg r -> Forall validType cs ->
  outcome (addComponents r cs) = Normal tt
  /\ heap (addComponents r cs) = addAll r cs.
Proof.
  induction cs as [|c cs IH]; intros r Hreach Hall; [split; reflexivity|].
  inversion Hall as [|? ? Hc Hcs]; subst. cbn [addComponents addAll fold_left].
  rewrite (addComponent_validType_returns (reachable_invariant Hreach) Hc).
  cbn [outcome heap]. apply IH; [|exact Hcs].
  apply reach_add; [exact Hreach|exact I].
Qed.

(** Bulk registration keeps, for every id, the first component of the list
    that carries it: when all types are in 1..7, [addComponents] on a new
    registry returns normally and the registry then holds the rewritten
    first occurrences, in list order, and nothing else. *)
Theorem addComponents_keeps_first_occurrences :
  forall cfg cs,
    Forall validType cs ->
    outcome (addComponents (new cfg) cs) = Normal tt
    /\ getAllComponents (heap (addComponents (new cfg) cs))
       = map (ComponentRegistry.rewrite cfg) (firstOccurrences [] cs)
    /\ getTotalCount (heap (addComponents (new cfg) cs))
       = Z.of_nat (List.length (firstOccurrences [] cs)).
Proof.
  intros cfg cs Hall.
  destruct (addComponents_validType (reach_new anyComponent cfg) Hall)
    as [Hout Hheap].
  split; [exact Hout|]. rewrite Hheap.
  assert (Hstored : getAllComponents (addAll (new cfg) cs)
                    = map (ComponentRegistry.rewrite cfg) (firstOccurrences [] cs)).
  { now rewrite (@addAll_stored cfg cs (new cfg) eq_refl). }
  split; [exact Hstored|].
  unfold getTotalCount. rewrite size_length. fold (getAllComponents (addAll (new cfg) cs)).
  now rewrite Hstored, length_map.
Qed.

Lemma addComponents_keeps_first_occurrences_witness :
  getAllComponents
    (heap (addComponents (new sampleConfig) [dxvkA; dxvkB; dxvkAgain; steamC]))
  = map (ComponentRegistry.rewrite sampleConfig) [dxvkA; dxvkB; steamC].
Proof.
  assert (Htypes : Forall validType [dxvkA; dxvkB; dxvkAgain; steamC]).
  { repeat constructor; cbn; lia. }
  exact (proj1 (proj2 (@addComponents_keeps_first_occurrences sampleConfig
                         [dxvkA; dxvkB; dxvkAgain; steamC] Htypes))).
Defined.





Lemma highest_fold l : forall acc,
  let h := fold_left (fun highest id => if id >? highest then id else highest)
             l acc in
  acc <= h /\ (forall k, In k l -> k <= h) /\ (h = acc \/ In h l).
Proof.
  induction l as [|k l IH]; intros acc; cbn [fold_left In].
  - repeat split; [lia|tauto|now left].
  - destruct (IH (if k >? acc then k else acc)) as (Hacc & Hall & Hin).
    destruct (Z.gtb_spec k acc); repeat split; try lia.
    + intros k' [<-|Hk']; [lia|auto].
    + destruct Hin as [->|Hin]; auto.
    + intros k' [<-|Hk']; [lia|auto].
    + destruct Hin as [->|Hin]; auto.
Qed.

(** [getHighestId()] is never negative and bounds every stored id; it is
    either 0 (empty registry, or no positive id) or the id of a stored
    component. *)
Theorem getHighestId_bounds :
  forall cfg r,
    reachable anyComponent cfg r ->
    0 <= getHighestId r
    /\ (forall c, In c (getAllComponents r) -> Component.id c <= getHighestId r)
    /\ (getHighestId r = 0
        \/ exists c, In c (getAllComponents r)
                     /\ Component.id c = getHighestId r).
Proof.
  intros cfg r Hreach. pose proof (reachable_invariant Hreach) as Hinv.
  unfold getHighestId.
  destruct (highest_fold (JsMap.keys (components r)) 0) as (H0 & Hall & Hin).
  rewrite (inv_keys Hinv) in *. split; [exact H0|]. split.
  - intros c Hc. apply Hall. now apply in_map.
  - destruct Hin as [->|Hin]; [now left|]. right.
    apply in_map_iff in Hin. destruct Hin as (c & Hid & Hc). eauto.
Qed.

Lemma getHighestId_bounds_witness :
  getHighestId (addAll (new sampleConfig) [negativeId]) = 0
  /\ 3 <= getHighestId fullRegistry.
Proof.
  assert (Hneg : reachable anyComponent sampleConfig
                   (addAll (new sampleConfig) [negativeId])).
  { apply reach_add; [apply reach_new|exact I]. }
  assert (Hfull : reachable anyComponent sampleConfig fullRegistry).
  { apply reach_load. repeat (apply reach_add; [|exact I]). apply reach_new. }
  split.
  - destruct (getHighestId_bounds Hneg) as (Hge & _ & [H0|(c & Hc & Hid)]);
      [exact H0|].
    exfalso. destruct Hc as [<-|[]]. rewrite <- Hid in Hge. cbn in Hge. lia.
  - destruct (getHighestId_bounds Hfull) as (_ & Hall & _).
    exact (Hall (ComponentRegistry.rewrite sampleConfig steamC)
             (or_intror (or_intror (or_introl eq_refl)))).
Defined.

Section SortedByComparator.
Context {A : Type} (cmp : A -> A -> Z) (le : A -> A -> Prop).
Hypothesis cmp_le : forall x y, cmp x y <= 0 -> le x y.
Hypothesis cmp_gt : forall x y, cmp x y > 0 -> le y x.
Hypothesis le_trans : forall x y z, le x y -> le y z -> le x z.

Lemma sortInsert_keeps_sorted x l :
  StronglySorted le l -> StronglySorted le (sortInsert cmp x l).
Proof.
  induction 1 as [|y l Hs IH Hall]; cbn [sortInsert].
  - repeat constructor.
  - destruct (Z.leb_spec (cmp x y) 0) as [Hle|Hgt].
    + constructor; [now constructor|].
      constructor; [now apply cmp_le|].
      eapply Forall_impl; [|exact Hall].
      intros z Hz. eapply le_trans; [apply cmp_le|]; eauto.
    + constructor; [exact IH|].
      eapply Permutation_Forall; [apply sortInsert_perm|].
      constructor; [apply cmp_gt; lia|exact Hall].
Qed.

Lemma arraySort_sorted l : StronglySorted le (arraySort cmp l).
Proof.
  induction l as [|x l IH]; cbn; [constructor|].
  now apply sortInsert_keeps_sorted.
Qed.

Variable p : A -> bool.
Hypothesis p_tied : forall x y, p x = true -> p y = true -> cmp x y <= 0.

Lemma sortInsert_keeps_order x l :
  filter p (sortInsert cmp x l) = filter p (x :: l).
Proof.
  induction l as [|y l IH]; [reflexivity|]. cbn [sortInsert].
  destruct (Z.leb_spec (cmp x y) 0) as [Hle|Hgt]; [reflexivity|].
  cbn [filter] in *. rewrite IH.
  destruct (p y) eqn:Hy, (p x) eqn:Hx; try reflexivity.
  pose proof (p_tied Hx Hy). lia.
Qed.

Lemma arraySort_keeps_order l : filter p (arraySort cmp l) = filter p l.
Proof.
  unfold arraySort. induction l as [|x l IH]; [reflexivity|].
  cbn [fold_right]. rewrite sortInsert_keeps_order. cbn [filter].
  now rewrite IH.
Qed.

End SortedByComparator.

Lemma sortByTypeAndId_sorted l :
  StronglySorted typeThenIdOrder (sortByTypeAndIdDescending l).
Proof.
  unfold sortByTypeAndIdDescending.
  apply arraySort_sorted; unfold typeThenIdOrder.
  - intros x y.
    destruct (Z.eqb_spec (Component.type x) (Component.type y));
      cbn [negb]; lia.
  - intros x y.
    destruct (Z.eqb_spec (Component.type x) (Component.type y));
      cbn [negb]; lia.
  - intros x y z; lia.
Qed.

(** [sortByTypeAndIdDescending] returns a permutation of its argument,
    ordered by type ascending and by id descending within a type, and keeps
    the relative order of elements that agree on type and id. *)
Theorem sortByTypeAndIdDescending_stable_sort :
  forall l,
    Permutation l (sortByTypeAndIdDescending l)
    /\ StronglySorted typeThenIdOrder (sortByTypeAndIdDescending l)
    /\ (forall type id,
           filter (hasTypeAndId type id) (sortByTypeAndIdDescending l)
           = filter (hasTypeAndId type id) l).
Proof.
  intros l. split; [apply arraySort_perm|].
  split; [apply sortByTypeAndId_sorted|].
  intros type id. apply arraySort_keeps_order.
  unfold hasTypeAndId, hasType, hasId. intros x y Hx Hy.
  apply andb_true_iff in Hx, Hy. rewrite !Z.eqb_eq in Hx, Hy.
  destruct (Z.eqb_spec (Component.type x) (Component.type y));
    cbn [negb]; lia.
Qed.

Lemma getCountsByType_table r :
  getCountsByType r
  = map (fun type => (type, getCountByType r type)) [1; 2; 3; 4; 5; 6; 7].
Proof. reflexivity. Qed.

(** [getCountsByType()] has one entry per type 1..7, in this order, holding
    the number of registered components of that type; when every registered
    type is in 1..7 the seven numbers add up to [getTotalCount()]. *)
Theorem getCountsByType_partition_of_total :
  forall cfg r,
    reachable validType cfg r ->
    map fst (getCountsByType r) = [1; 2; 3; 4; 5; 6; 7]
    /\ (forall type count,
           In (type, count) (getCountsByType r) ->
           count = Z.of_nat (List.length (registeredOfType r type)))
    /\ sumList (map snd (getCountsByType r)) = getTotalCount r.
Proof.
  intros cfg r Hreach. pose proof (reachable_invariant Hreach) as Hinv.
  rewrite getCountsByType_table. split; [reflexivity|]. split.
  - intros type count Hin. apply in_map_iff in Hin.
    destruct Hin as (t & [= <- <-] & Ht).
    eapply getCountByType_registered; [exact Hinv|]. cbn in Ht. lia.
  - rewrite map_map. cbn [snd].
    destruct (counts_agree Hinv) as [-> _]. reflexivity.
Qed.

Lemma getCountsByType_partition_of_total_witness :
  getCountsByType (addAll (new sampleConfig) [dxvkA; dxvkB; steamC])
  = [(1, 0); (2, 0); (3, 2); (4, 0); (5, 0); (6, 0); (7, 1)]
  /\ sumList
       (map snd (getCountsByType (addAll (new sampleConfig) [dxvkA; dxvkB; steamC])))
     = getTotalCount (addAll (new sampleConfig) [dxvkA; dxvkB; steamC]).
Proof.
  split; [reflexivity|].
  refine (proj2 (proj2 (@getCountsByType_partition_of_total sampleConfig _ _))).
  repeat (apply reach_add; [|unfold validType; cbn; lia]). apply reach_new.
Defined.

(* ------------------------------------------------------------------ *)
(** ** The list generators *)
(* ------------------------------------------------------------------ *)

(** [generateAllComponentList] lists every registered component once,
    whatever the registry holds: [total] is [getTotalCount()], and the
    entries are ordered by type ascending and by id descending within a
    type. *)
Theorem generateAllComponentList_complete_and_ordered :
  forall now r timestamp,
    let data := ApiResponseWithTime.data (generateAllComponentList now r timestamp) in
    AllComponentListData.total data = getTotalCount r
    /\ Permutation (map toAllComponentEntry (getAllComponents r))
         (AllComponentListData.list data)
    /\ StronglySorted
         (fun a b =>
            AllComponentEntry.type a < AllComponentEntry.type b
            \/ (AllComponentEntry.type a = AllComponentEntry.type b
                /\ AllComponentEntry.id a >= AllComponentEntry.id b))
         (AllComponentListData.list data).
Proof.
  intros now r timestamp. cbn.
  assert (Hperm : Permutation (getAllComponents r)
                    (sortByTypeAndIdDescending (getAllComponents r)))
    by apply arraySort_perm.
  pose proof (sortByTypeAndId_sorted (getAllComponents r)) as Hsorted.
  split; [|split].
  - rewrite length_map, <- (Permutation_length Hperm).
    unfold getTotalCount. now rewrite size_length.
  - now apply Permutation_map.
  - apply StronglySorted_map. exact Hsorted.
Qed.

(** [generateComponentList] never truncates: [page] is 1 and [pageSize] is
    10 whatever the registry holds, while [list] has all registered
    components of type 1 (in strictly descending id order) and [total] is
    their number, also beyond ten. *)
Theorem generateComponentList_is_not_paginated :
  forall cfg now r timestamp,
    reachable anyComponent cfg r ->
    let data := ApiResponseWithTime.data (generateComponentList now r timestamp) in
    ComponentListData.page data = 1
    /\ ComponentListData.pageSize data = 10
    /\ ComponentListData.total data
       = Z.of_nat (List.length (registeredOfType r 1))
    /\ List.length (ComponentListData.list data)
       = List.length (registeredOfType r 1)
    /\ Permutation (map toComponentListEntry (registeredOfType r 1))
         (ComponentListData.list data)
    /\ StronglySorted
         (fun a b => ComponentListEntry.id a > ComponentListEntry.id b)
         (ComponentListData.list data).
Proof.
  intros cfg now r timestamp Hreach.
  pose proof (reachable_invariant Hreach) as Hinv.
  unfold generateComponentList, getByType.
  rewrite (@inv_partition _ _ _ Hinv 1) by lia.
  cbn [ApiResponseWithTime.data ComponentListData.page
       ComponentListData.pageSize ComponentListData.total
       ComponentListData.list].
  split; [reflexivity|]. split; [reflexivity|].
  unfold sortByIdDescending at 1 2.
  rewrite length_map, arraySort_length. split; [reflexivity|].
  split; [reflexivity|]. split.
  - apply Permutation_map, arraySort_perm.
  - apply StronglySorted_map.
    change (StronglySorted (fun a b => Component.id a > Component.id b)
              (sortByIdDescending (registeredOfType r 1))).
    apply strictly_descending; [apply sortByIdDescending_sorted|].
    eapply Permutation_NoDup; [apply Permutation_map, arraySort_perm|].
    eapply registered_ids_unique; eauto.
Qed.

Lemma generateComponentList_is_not_paginated_witness :
  let twelve :=
    map (fun id => sampleComponent id 1 "box" sampleMd5 (JsString "1"))
      (upto 1 12) in
  let data :=
    ApiResponseWithTime.data
      (generateComponentList 0 (addAll (new sampleConfig) twelve) None) in
  ComponentListData.pageSize data = 10
  /\ ComponentListData.total data = 12
  /\ List.length (ComponentListData.list data) = 12%nat.
Proof.
  intros twelve data.
  assert (Hreach : reachable anyComponent sampleConfig
                     (addAll (new sampleConfig) twelve)).
  { repeat (apply reach_add; [|exact I]). apply reach_new. }
  destruct (@generateComponentList_is_not_paginated sampleConfig 0 _ None Hreach)
    as (_ & Hsize & Htotal & Hlength & _).
  split; [exact Hsize|]. split.
  - subst data. rewrite Htotal. reflexivity.
  - subst data. rewrite Hlength. reflexivity.
Defined.

Lemma orElse_nonempty s d : s <> EmptyString -> orElse (Some s) d = s.
Proof. destruct s; [congruence|reflexivity]. Qed.

(** A non-empty [timestamp] argument is the [time] of every time-stamped
    document, so documents generated with the same argument agree; an
    absent or empty argument is replaced by the clock reading. *)
Theorem timestamp_is_shared_by_all_documents :
  forall now r timestamp,
    let time := orElse timestamp (getTimestamp now) in
    (forall s, timestamp = Some s -> s <> EmptyString -> time = s)
    /\ (timestamp = None \/ timestamp = Some EmptyString ->
        time = getTimestamp now)
    /\ ApiResponseWithTime.time (generateAllComponentList now r timestamp) = time
    /\ ApiResponseWithTime.time (generateComponentList now r timestamp) = time
    /\ ApiResponseWithTime.time (generateContainerList now r timestamp) = time
    /\ (forall doc,
           generateDefaultComponent now r timestamp = Normal doc ->
           ApiResponseWithTime.time doc = time)
    /\ (forall doc,
           generateImagefsDetail now r timestamp = Normal doc ->
           ApiResponseWithTime.time doc = time)
    /\ (forall variant doc,
           generateExecuteScript now r variant timestamp = Normal doc ->
           ApiResponseWithTime.time doc = time).
Proof.
  intros now r timestamp time. subst time.
  split; [intros s -> Hs; now apply orElse_nonempty|].
  split; [intros [->| ->]; reflexivity|].
  split; [reflexivity|]. split; [reflexivity|]. split; [reflexivity|].
  split; [|split].
  - intros doc. unfold generateDefaultComponent.
    destruct (defaults r) as [d|]; cbn [deref bind]; [|discriminate].
    destruct (getById r (Defaults.dxvk d)); [|discriminate].
    destruct (getById r (Defaults.vkd3d d)); [|discriminate].
    destruct (getById r (Defaults.steamClient d)); [|discriminate].
    intros [= <-]. reflexivity.
  - intros doc. unfold generateImagefsDetail.
    destruct (imagefs r); cbn [deref bind]; [|discriminate].
    intros [= <-]. reflexivity.
  - intros variant doc. unfold generateExecuteScript.
    destruct (defaults r) as [d|]; cbn [deref bind]; [|discriminate].
    destruct (find _ (containers r)); cbn [bind]; [|discriminate].
    destruct (executionConfig r); cbn [deref bind]; [|discriminate].
    destruct (imagefs r); cbn [deref bind]; [|discriminate].
    intros [= <-]. reflexivity.
Qed.

Lemma timestamp_is_shared_by_all_documents_witness :
  ApiResponseWithTime.time
    (generateAllComponentList 5000 validRegistry (Some "1700000000"))
  = "1700000000"
  /\ ApiResponseWithTime.time
       (generateContainerList 5000 validRegistry (Some EmptyString))
     = "5".
Proof.
  destruct (timestamp_is_shared_by_all_documents 5000 validRegistry
              (Some "1700000000"))
    as (Hsome & _ & Hall & _).
  destruct (timestamp_is_shared_by_all_documents 5000 validRegistry
              (Some EmptyString))
    as (_ & Hclock & _ & _ & Hcontainers & _).
  split.
  - rewrite Hall. apply (Hsome "1700000000" eq_refl). discriminate.
  - rewrite Hcontainers. rewrite Hclock; [reflexivity|now right].
Defined.

(* ------------------------------------------------------------------ *)
(** ** Execute scripts and validation together *)
(* ------------------------------------------------------------------ *)

Lemma resolved_ids cfg r ids :
  reachable anyComponent cfg r ->
  map Component.id (resolved r ids)
  = filter (fun id => JsMap.has (components r) id) ids.
Proof.
  intros Hreach. pose proof (reachable_invariant Hreach) as Hinv.
  induction ids as [|id ids IH]; [reflexivity|]. cbn [resolved filter].
  unfold JsMap.has. fold (getById r id).
  destruct (getById r id) as [c|] eqn:Hc; [|exact IH].
  cbn [map]. rewrite IH. f_equal. exact (@getById_carries_id _ _ _ _ _ Hinv Hc).
Qed.

Lemma generateExecuteScript_shape now r variant timestamp doc :
  generateExecuteScript now r variant timestamp = Normal doc ->
  exists d ct ec im,
    defaults r = Some d
    /\ find (fun c => Container.id c =? Defaults.container d) (containers r)
       = Some ct
    /\ executionConfig r = Some ec
    /\ imagefs r = Some im
    /\ ExecuteScriptData.component_ids (ApiResponseWithTime.data doc)
       = match variant with
         | generic => Defaults.genericComponentIds d
         | qualcomm => Defaults.qualcommComponentIds d
         end
    /\ ExecuteScriptData.execution_context (ApiResponseWithTime.data doc)
       = match variant with
         | generic => Defaults.genericContext d
         | qualcomm => Defaults.qualcommContext d
         end
    /\ ExecuteScriptData.component (ApiResponseWithTime.data doc)
       = map toExecuteComponent
           (resolved r
              (ExecuteScriptData.component_ids (ApiResponseWithTime.data doc)))
    /\ ExecuteScriptData.container (ApiResponseWithTime.data doc)
       = toContainerRef ct
    /\ ExecuteScriptData.container_id (ApiResponseWithTime.data doc)
       = Defaults.container d
    /\ ExecuteScriptData.imagefs (ApiResponseWithTime.data doc)
       = toImagefsRef im.
Proof.
  unfold generateExecuteScript.
  destruct (defaults r) as [d|]; cbn [deref bind]; [|discriminate].
  destruct (find _ (containers r)) as [ct|] eqn:Hfind; cbn [bind];
    [|discriminate].
  destruct (executionConfig r) as [ec|]; cbn [deref bind]; [|discriminate].
  destruct (imagefs r) as [im|]; cbn [deref bind]; [|discriminate].
  intros [= <-]. exists d, ct, ec, im.
  cbn [ApiResponseWithTime.data ExecuteScriptData.component_ids
       ExecuteScriptData.execution_context ExecuteScriptData.component
       ExecuteScriptData.container ExecuteScriptData.container_id
       ExecuteScriptData.imagefs].
  rewrite resolveComponents_resolved. repeat split; assumption.
Qed.

Lemma executeComponent_ids cs :
  map ExecuteComponent.id (map toExecuteComponent cs) = map Component.id cs.
Proof. now rewrite map_map. Qed.

(** In an execute-script document of either variant, the ids of the
    [component] entries are the configured ids that are registered, in the
    configured order and with their repetitions; ids that are not registered
    leave no trace in [component]. *)
Theorem generateExecuteScript_component_ids :
  forall cfg now r variant timestamp doc,
    reachable anyComponent cfg r ->
    generateExecuteScript now r variant timestamp = Normal doc ->
    map ExecuteComponent.id
      (ExecuteScriptData.component (ApiResponseWithTime.data doc))
    = filter (fun id => JsMap.has (components r) id)
        (ExecuteScriptData.component_ids (ApiResponseWithTime.data doc)).
Proof.
  intros cfg now r variant timestamp doc Hreach Hdoc.
  destruct (generateExecuteScript_shape _ _ _ _ Hdoc)
    as (d & ct & ec & im & _ & _ & _ & _ & _ & _ & Hcomponent & _).
  rewrite Hcomponent, executeComponent_ids.
  now apply resolved_ids with cfg.
Qed.

Lemma generateExecuteScript_component_ids_witness :
  exists doc,
    generateExecuteScript 0 fullRegistry generic None = Normal doc
    /\ ExecuteScriptData.component_ids (ApiResponseWithTime.data doc)
       = [2; 99; 1]
    /\ map ExecuteComponent.id
         (ExecuteScriptData.component (ApiResponseWithTime.data doc))
       = [2; 1].
Proof.
  assert (Hreach : reachable anyComponent sampleConfig fullRegistry).
  { apply reach_load. repeat (apply reach_add; [|exact I]). apply reach_new. }
  eexists. split; [reflexivity|]. split; [reflexivity|].
  rewrite (@generateExecuteScript_component_ids sampleConfig 0 fullRegistry
             generic None _ Hreach eq_refl).
  reflexivity.
Defined.

(** The variant never decides whether [generateExecuteScript] throws, and
    the two documents differ only in [component], [component_ids] and
    [execution_context]. *)
Theorem generateExecuteScript_variants_agree :
  forall now r timestamp,
    (raises (generateExecuteScript now r generic timestamp)
     <-> raises (generateExecuteScript now r qualcomm timestamp))
    /\ (forall g q,
           generateExecuteScript now r generic timestamp = Normal g ->
           generateExecuteScript now r qualcomm timestamp = Normal q ->
           let dg := ApiResponseWithTime.data g in
           let dq := ApiResponseWithTime.data q in
           ApiResponseWithTime.time g = ApiResponseWithTime.time q
           /\ ExecuteScriptData.container dg = ExecuteScriptData.container dq
           /\ ExecuteScriptData.container_id dg = ExecuteScriptData.container_id dq
           /\ ExecuteScriptData.imagefs dg = ExecuteScriptData.imagefs dq
           /\ ExecuteScriptData.audio_driver dg = ExecuteScriptData.audio_driver dq
           /\ ExecuteScriptData.controller dg = ExecuteScriptData.controller dq
           /\ ExecuteScriptData.cpu_limitations dg
              = ExecuteScriptData.cpu_limitations dq
           /\ ExecuteScriptData.directx_panel dg = ExecuteScriptData.directx_panel dq
           /\ ExecuteScriptData.environment dg = ExecuteScriptData.environment dq
           /\ ExecuteScriptData.launch_windowed_mode dg
              = ExecuteScriptData.launch_windowed_mode dq
           /\ ExecuteScriptData.start_param dg = ExecuteScriptData.start_param dq
           /\ ExecuteScriptData.translations dg = ExecuteScriptData.translations dq
           /\ ExecuteScriptData.video_memory dg = ExecuteScriptData.video_memory dq).
Proof.
  intros now r timestamp. unfold generateExecuteScript, raises.
  destruct (defaults r) as [d|]; cbn [deref bind];
    [|split; [split; eauto|discriminate]].
  destruct (find _ (containers r)) as [ct|]; cbn [bind];
    [|split; [split; eauto|discriminate]].
  destruct (executionConfig r) as [ec|]; cbn [deref bind];
    [|split; [split; eauto|discriminate]].
  destruct (imagefs r) as [im|]; cbn [deref bind];
    [|split; [split; eauto|discriminate]].
  split.
  - split; intros [e He]; discriminate.
  - intros g q [= <-] [= <-]. cbn. repeat split.
Qed.

Lemma generateExecuteScript_variants_agree_witness :
  raises (generateExecuteScript 0 noImagefsRegistry qualcomm None)
  /\ exists g q,
      generateExecuteScript 0 validRegistry generic None = Normal g
      /\ generateExecuteScript 0 validRegistry qualcomm None = Normal q
      /\ ExecuteScriptData.container (ApiResponseWithTime.data g)
         = ExecuteScriptData.container (ApiResponseWithTime.data q)
      /\ ExecuteScriptData.component_ids (ApiResponseWithTime.data g) = [2; 1]
      /\ ExecuteScriptData.component_ids (ApiResponseWithTime.data q) = [3; 3].
Proof.
  split.
  - apply (proj1 (generateExecuteScript_variants_agree 0 noImagefsRegistry None)).
    eexists. reflexivity.
  - do 2 eexists. split; [reflexivity|]. split; [reflexivity|].
    split; [|split; reflexivity].
    exact (proj1 (proj2 (proj2 (generateExecuteScript_variants_agree 0
                                  validRegistry None)
                           _ _ eq_refl eq_refl))).
Defined.

Lemma valid_no_violation r :
  ValidationResult.valid (validate r) = true -> forall e, ~ violation r e.
Proof.
  change (ValidationResult.valid (validate r))
    with (isEmpty (ValidationResult.errors (validate r))).
  rewrite isEmpty_true. intros Hnil e He.
  apply validate_errors_violation in He. rewrite Hnil in He. exact He.
Qed.

Lemma valid_loaded r :
  ValidationResult.valid (validate r) = true ->
  exists d ec im,
    defaults r = Some d /\ executionConfig r = Some ec /\ imagefs r = Some im
    /\ getById r (Defaults.dxvk d) <> None
    /\ getById r (Defaults.vkd3d d) <> None
    /\ getById r (Defaults.steamClient d) <> None
    /\ (forall id, In id (Defaults.genericComponentIds d) ->
                   getById r id <> None)
    /\ (forall id, In id (Defaults.qualcommComponentIds d) ->
                   getById r id <> None).
Proof.
  intros Hvalid. pose proof (@valid_no_violation r Hvalid) as Hnone.
  destruct (defaults r) as [d|] eqn:Hd;
    [|exfalso; eapply Hnone; now apply no_defaults].
  destruct (executionConfig r) as [ec|] eqn:Hec;
    [|exfalso; eapply Hnone; now apply no_executionConfig].
  destruct (imagefs r) as [im|] eqn:Him;
    [|exfalso; eapply Hnone; now apply no_imagefs].
  exists d, ec, im. repeat split; try reflexivity.
  - intros H. eapply Hnone. eapply dangling_dxvk; eauto.
  - intros H. eapply Hnone. eapply dangling_vkd3d; eauto.
  - intros H. eapply Hnone. eapply dangling_steamClient; eauto.
  - intros id Hid H. eapply Hnone. eapply dangling_generic; eauto.
  - intros id Hid H. eapply Hnone. eapply dangling_qualcomm; eauto.
Qed.

(** A registry that passes [validate()] never makes
    [generateDefaultComponent] or [generateImagefsDetail] throw. *)
Theorem valid_registry_generates_defaults_and_imagefs :
  forall now r timestamp,
    ValidationResult.valid (validate r) = true ->
    (exists doc, generateDefaultComponent now r timestamp = Normal doc)
    /\ (exists doc, generateImagefsDetail now r timestamp = Normal doc).
Proof.
  intros now r timestamp Hvalid.
  destruct (@valid_loaded r Hvalid)
    as (d & ec & im & Hd & _ & Him & Hdxvk & Hvkd3d & Hsteam & _).
  split.
  - unfold generateDefaultComponent. rewrite Hd. cbn [deref bind].
    destruct (getById r (Defaults.dxvk d)); [|congruence].
    destruct (getById r (Defaults.vkd3d d)); [|congruence].
    destruct (getById r (Defaults.steamClient d)); [|congruence].
    eexists. reflexivity.
  - unfold generateImagefsDetail. rewrite Him. cbn [deref bind].
    eexists. reflexivity.
Qed.

Lemma valid_registry_generates_defaults_and_imagefs_witness :
  ValidationResult.valid (validate validRegistry) = true
  /\ exists doc, generateDefaultComponent 0 validRegistry None = Normal doc.
Proof.
  split; [reflexivity|].
  exact (proj1 (valid_registry_generates_defaults_and_imagefs 0 validRegistry
                  None eq_refl)).
Defined.

(** [validate()] does not look at [defaults.container].  A registry that
    passes it makes [generateExecuteScript] return exactly when some
    container has that id, and then every configured id has its entry:
    the ids of [component] are [component_ids]. *)
Theorem valid_registry_execute_script :
  forall cfg now r variant timestamp,
    reachable anyComponent cfg r ->
    ValidationResult.valid (validate r) = true ->
    exists d,
      defaults r = Some d
      /\ ((forall c, In c (containers r) ->
                     Container.id c <> Defaults.container d) ->
          generateExecuteScript now r variant timestamp
          = Throw
              (Error
                 ("Container " ++ showNumber (Defaults.container d)
                  ++ " not found")%string))
      /\ ((exists c, In c (containers r)
                     /\ Container.id c = Defaults.container d) ->
          exists doc,
            generateExecuteScript now r variant timestamp = Normal doc
            /\ map ExecuteComponent.id
                 (ExecuteScriptData.component (ApiResponseWithTime.data doc))
               = ExecuteScriptData.component_ids (ApiResponseWithTime.data doc)).
Proof.
  intros cfg now r variant timestamp Hreach Hvalid.
  destruct (@valid_loaded r Hvalid)
    as (d & ec & im & Hd & Hec & Him & _ & _ & _ & Hgeneric & Hqualcomm).
  exists d. split; [exact Hd|]. split.
  - intros Hnone. unfold generateExecuteScript. rewrite Hd. cbn [deref bind].
    now rewrite (find_no_container _ Hnone).
  - intros Hsome. destruct (find_container _ Hsome) as [ct Hct].
    assert (Hdoc : exists doc,
               generateExecuteScript now r variant timestamp = Normal doc).
    { unfold generateExecuteScript. rewrite Hd. cbn [deref bind].
      rewrite Hct, Hec, Him. cbn [deref bind]. eexists. reflexivity. }
    destruct Hdoc as [doc Hdoc]. exists doc. split; [exact Hdoc|].
    destruct (generateExecuteScript_shape _ _ _ _ Hdoc)
      as (d' & _ & _ & _ & Hd' & _ & _ & _ & Hids & _ & Hcomponent & _).
    rewrite Hcomponent, executeComponent_ids, (resolved_ids _ Hreach).
    rewrite Hd in Hd'. injection Hd' as <-. rewrite Hids.
    apply forallb_filter_id. apply forallb_forall. intros id Hid.
    apply has_get. unfold getById in Hgeneric, Hqualcomm.
    destruct variant;
      [specialize (Hgeneric id Hid)|specialize (Hqualcomm id Hid)];
      destruct (JsMap.get (components r) id); eauto; congruence.
Qed.

Lemma valid_registry_execute_script_witness :
  ValidationResult.valid (validate wrongContainerRegistry) = true
  /\ generateExecuteScript 0 wrongContainerRegistry generic None
     = Throw (Error "Container 100 not found")
  /\ exists doc,
      generateExecuteScript 0 validRegistry qualcomm None = Normal doc
      /\ map ExecuteComponent.id
           (ExecuteScriptData.component (ApiResponseWithTime.data doc))
         = [3; 3].
Proof.
  assert (Hwrong : reachable anyComponent sampleConfig wrongContainerRegistry).
  { apply reach_load. repeat (apply reach_add; [|exact I]). apply reach_new. }
  assert (Hvalid : reachable anyComponent sampleConfig validRegistry).
  { apply reach_load. repeat (apply reach_add; [|exact I]). apply reach_new. }
  split; [reflexivity|]. split.
  - destruct (@valid_registry_execute_script sampleConfig 0 _ generic None
                Hwrong eq_refl)
      as (d & Hd & Hthrows & _).
    injection Hd as <-. apply Hthrows.
    intros c [<-|[]]. discriminate.
  - destruct (@valid_registry_execute_script sampleConfig 0 _ qualcomm None
                Hvalid eq_refl)
      as (d & Hd & _ & Hreturns).
    destruct Hreturns as (doc & Hdoc & Hids).
    { exists sampleContainer. injection Hd as <-. split; [now left|reflexivity]. }
    exists doc. split; [exact Hdoc|]. rewrite Hids.
    cbv in Hdoc. injection Hdoc as <-. reflexivity.
Defined.

Lemma append_nonempty a b : (a ++ "/" ++ b)%string <> EmptyString.
Proof. destruct a; discriminate. Qed.

(** The [download_url] written at registration is never empty, so for the
    components of a reachable registry the "missing download_url" check of
    [validate] cannot fire: a component adds that message to no report. *)
Theorem registered_download_url_never_missing :
  forall cfg r c,
    reachable anyComponent cfg r ->
    In c (getAllComponents r) ->
    truthy (Component.download_url c) = true
    /\ forall errors,
        In (componentLabel c ++ ": missing download_url")%string
          (validateComponent errors c) ->
        In (componentLabel c ++ ": missing download_url")%string errors.
Proof.
  intros cfg r c Hreach Hc.
  pose proof (reachable_invariant Hreach) as Hinv.
  pose proof (inv_origin Hinv) as Horigin. rewrite Forall_forall in Horigin.
  destruct (Horigin c Hc) as (c0 & _ & ->).
  assert (Hurl : Component.download_url (ComponentRegistry.rewrite cfg c0)
                 <> EmptyString) by apply append_nonempty.
  split.
  - destruct (Component.download_url (ComponentRegistry.rewrite cfg c0));
      [congruence|reflexivity].
  - intros errors Hin. apply In_validateComponent in Hin.
    unfold fileSizeError, md5Error in Hin.
    destruct Hin as [Hin|[[_ H]|[[_ H]|[[_ H]|[[_ H]|[H _]]]]]];
      [exact Hin|apply append_inj_l in H; discriminate..|contradiction].
Qed.

Lemma registered_download_url_never_missing_witness :
  truthy
    (Component.download_url (ComponentRegistry.rewrite sampleConfig dxvkA))
  = true.
Proof.
  refine (proj1 (@registered_download_url_never_missing sampleConfig
                   (addAll (new sampleConfig) [dxvkA]) _ _ (or_introl eq_refl))).
  apply reach_add; [apply reach_new|exact I].
Defined.

(* ------------------------------------------------------------------ *)
(** ** Manifests, index and downloads together *)
(* ------------------------------------------------------------------ *)

(** [generateAllManifests] never throws and returns seven manifests, keyed
    by the seven distinct manifest names in type order; under the name of a
    type is the document [generateManifest] returns for that type. *)
Theorem generateAllManifests_one_per_type :
  forall r,
    exists manifests,
      generateAllManifests r = Normal manifests
      /\ JsMap.keys manifests
         = [ "box64_manifest"; "drivers_manifest"; "dxvk_manifest";
             "vkd3d_manifest"; "games_manifest"; "libraries_manifest";
             "steam_manifest" ]
      /\ forall type meta,
          COMPONENT_TYPE_META type = Some meta ->
          exists doc,
            JsMap.get manifests (TypeMeta.manifest meta) = Some doc
            /\ generateManifest r type = Normal doc.
Proof.
  intros r. eexists. split; [reflexivity|]. split; [reflexivity|].
  intros type meta.
  destruct type as [|[[[]|[]|]|[[]|[]|]|]|]; cbn [COMPONENT_TYPE_META];
    try discriminate;
    intros [= <-]; eexists; split; reflexivity.
Qed.

Lemma generateAllManifests_one_per_type_witness :
  exists manifests doc,
    generateAllManifests fullRegistry = Normal manifests
    /\ JsMap.get manifests "dxvk_manifest" = Some doc
    /\ ManifestData.total (ApiResponse.data doc) = 2.
Proof.
  destruct (generateAllManifests_one_per_type fullRegistry)
    as (manifests & Hall & _ & Hget).
  destruct (Hget 3 _ eq_refl) as (doc & Hdoc & Hmanifest).
  exists manifests, doc. split; [exact Hall|]. split; [exact Hdoc|].
  cbv in Hmanifest. injection Hmanifest as <-. reflexivity.
Defined.

(** The index and the manifests agree for every registry: each category of
    [generateIndex] points, by its [manifest_url], at a manifest of
    [generateAllManifests] with the same type and names, whose [total] is
    the category's [count]. *)
Theorem index_categories_match_manifests :
  forall r,
    exists index manifests,
      generateIndex r = Normal index
      /\ generateAllManifests r = Normal manifests
      /\ forall cat,
          In cat (IndexData.categories (ApiResponse.data index)) ->
          exists key doc,
            IndexCategory.manifest_url cat = ("/components/" ++ key)%string
            /\ JsMap.get manifests key = Some doc
            /\ ManifestData.type (ApiResponse.data doc) = IndexCategory.type cat
            /\ ManifestData.type_name (ApiResponse.data doc)
               = IndexCategory.name cat
            /\ ManifestData.display_name (ApiResponse.data doc)
               = IndexCategory.display_name cat
            /\ ManifestData.total (ApiResponse.data doc)
               = IndexCategory.count cat.
Proof.
  intros r. do 2 eexists. split; [reflexivity|]. split; [reflexivity|].
  intros cat Hcat. cbn in Hcat.
  repeat (destruct Hcat as [<-|Hcat];
          [do 2 eexists; split; [reflexivity|]; split; [reflexivity|];
           cbn; repeat split;
           unfold getCountByType, sortByIdDescending;
           now rewrite length_map, arraySort_length|]).
  destruct Hcat.
Qed.

Lemma index_categories_match_manifests_witness :
  exists index manifests first doc,
    generateIndex fullRegistry = Normal index
    /\ generateAllManifests fullRegistry = Normal manifests
    /\ nth_error (IndexData.categories (ApiResponse.data index)) 2 = Some first
    /\ IndexCategory.manifest_url first = "/components/dxvk_manifest"
    /\ JsMap.get manifests "dxvk_manifest" = Some doc
    /\ ManifestData.total (ApiResponse.data doc) = IndexCategory.count first.
Proof.
  destruct (index_categories_match_manifests fullRegistry)
    as (index & manifests & Hindex & Hall & Hcats).
  pose proof Hindex as Hcomputed. cbv in Hcomputed.
  injection Hcomputed as Hcomputed.
  destruct (nth_error (IndexData.categories (ApiResponse.data index)) 2)
    as [first|] eqn:Hnth; [|rewrite <- Hcomputed in Hnth; discriminate].
  destruct (Hcats first (nth_error_In _ _ Hnth))
    as (key & doc & Hurl & Hget & _ & _ & _ & Htotal).
  assert (Hfirst : IndexCategory.manifest_url first = "/components/dxvk_manifest").
  { rewrite <- Hcomputed in Hnth. injection Hnth as <-. reflexivity. }
  rewrite Hfirst in Hurl. injection Hurl as <-.
  exists index, manifests, first, doc. repeat split; assumption.
Defined.

Lemma compareLengths_consistent : consistentComparator compareLengths.
Proof. unfold consistentComparator, compareLengths. split; intros; lia. Qed.

(** With a consistent [localeCompare], [generateDownloads] lists every
    registered component once, ordered by type ascending and by name order
    within a type, and [total] is [getTotalCount()]. *)
Theorem generateDownloads_complete_and_ordered :
  forall localeCompare r,
    consistentComparator localeCompare ->
    let data := ApiResponse.data (generateDownloads localeCompare r) in
    DownloadsData.total data = getTotalCount r
    /\ exists sorted,
        DownloadsData.downloads data = map toDownloadEntry sorted
        /\ Permutation (getAllComponents r) sorted
        /\ StronglySorted (typeThenNameOrder localeCompare) sorted.
Proof.
  intros localeCompare r [Htotal Htrans]. cbn. split.
  - rewrite length_map, arraySort_length.
    unfold getTotalCount. now rewrite size_length.
  - eexists. split; [reflexivity|]. split; [apply arraySort_perm|].
    apply arraySort_sorted;
      unfold typeThenNameOrder, compareTypeThenName.
    + intros x y.
      destruct (Z.eqb_spec (Component.type x) (Component.type y));
        cbn [negb]; lia.
    + intros x y.
      destruct (Z.eqb_spec (Component.type x) (Component.type y));
        cbn [negb]; [|lia].
      intros Hgt. right. split; [lia|]. now apply Htotal.
    + intros x y z [Hxy|[Hxy Hnxy]] [Hyz|[Hyz Hnyz]]; try (left; lia).
      right. split; [lia|]. eapply Htrans; eauto.
Qed.

Lemma generateDownloads_complete_and_ordered_witness :
  map DownloadEntry.name
    (DownloadsData.downloads
       (ApiResponse.data (generateDownloads compareLengths validRegistry)))
  = ["dxvk-a"; "dxvk-b"; "steam-c"]
  /\ DownloadsData.total
       (ApiResponse.data (generateDownloads compareLengths validRegistry))
     = getTotalCount validRegistry.
Proof.
  split; [reflexivity|].
  exact (proj1 (generateDownloads_complete_and_ordered validRegistry
                  compareLengths_consistent)).
Defined.

(* ------------------------------------------------------------------ *)
(** ** From source records to the registry *)
(* ------------------------------------------------------------------ *)








Lemma parseCustomComponents_map config definitions :
  parseCustomComponents (Some definitions) config
  = map (componentOfCustom config) definitions.
Proof.
  unfold parseCustomComponents.
  assert (Hgen : forall acc,
             fold_left
               (fun components custom =>
                  components ++ [componentOfCustom config custom])
               definitions acc
             = acc ++ map (componentOfCustom config) definitions).
  { induction definitions as [|d ds IH]; intros acc; cbn [fold_left map].
    - now rewrite app_nil_r.
    - rewrite IH. now rewrite <- app_assoc. }
  apply (Hgen []).
Qed.

(** The override parser checks nothing and drops nothing: a missing file
    gives no component, otherwise there is one component per definition, in
    order, with the id and type as written (also a type outside 1..7).  Each
    already carries the registry's download URL and logo, so registering it
    under a fresh id stores it unchanged. *)
Theorem custom_components_pass_through :
  forall cfg definitions,
    parseCustomComponents None cfg = []
    /\ map Component.id (parseCustomComponents (Some definitions) cfg)
       = map CustomComponentDefinition.id definitions
    /\ map Component.type (parseCustomComponents (Some definitions) cfg)
       = map CustomComponentDefinition.type definitions
    /\ (forall c,
           In c (parseCustomComponents (Some definitions) cfg) ->
           ComponentRegistry.rewrite cfg c = c)
    /\ (forall r c,
           reachable anyComponent cfg r ->
           In c (parseCustomComponents (Some definitions) cfg) ->
           JsMap.has (components r) (Component.id c) = false ->
           getById (heap (addComponent r c)) (Component.id c) = Some c).
Proof.
  intros cfg definitions. rewrite parseCustomComponents_map, !map_map.
  split; [reflexivity|]. split; [reflexivity|]. split; [reflexivity|].
  assert (Hfixed : forall c,
             In c (map (componentOfCustom cfg) definitions) ->
             ComponentRegistry.rewrite cfg c = c).
  { intros c Hc. apply in_map_iff in Hc. destruct Hc as (d & <- & _).
    reflexivity. }
  split; [exact Hfixed|].
  intros r c Hreach Hc Hhas.
  destruct (addComponent_fresh r c Hhas) as (Hcomps & _).
  rewrite (inv_config (reachable_invariant Hreach)), (Hfixed c Hc) in Hcomps.
  unfold getById. rewrite Hcomps.
  rewrite <- (set_fresh _ _ _ (proj1 (has_false_get _ _) Hhas)).
  apply get_set_same.
Qed.

Lemma custom_components_pass_through_witness :
  let c := componentOfCustom sampleConfig (sampleCustom 50 9 "turnip-custom") in
  parseCustomComponents (Some [sampleCustom 50 9 "turnip-custom"]) sampleConfig
  = [c]
  /\ Component.display_name c = "turnip-custom"
  /\ getById (heap (addComponent (new sampleConfig) c)) 50 = Some c
  /\ outcome (addComponent (new sampleConfig) c) = Throw TypeError.
Proof.
  intros c. split; [reflexivity|]. split; [reflexivity|].
  split; [|reflexivity].
  destruct (custom_components_pass_through sampleConfig
              [sampleCustom 50 9 "turnip-custom"])
    as (_ & _ & _ & _ & Hstored).
  apply (Hstored (new sampleConfig) c (reach_new anyComponent sampleConfig));
    [now left|reflexivity].
Defined.
